(** * dnsprobe: a shallow embedding of the measurement pipeline

    The development follows [src/dnsprobe.h] and [src/logger.h]:
    - [Log]: the static logger;
    - [Domain]: the per-domain statistics, the queue of unsaved events and
      the generator of probe targets;
    - [MySQLAccess]: the part of the storage layer that saves domains;
    - [RemoteQuery] / [DNSQuery]: one probe and its DNS variant;
    - [Vantage]: the signal handler that drives probing and saving.

    A C++ [double] is a binary64 float ([PrimFloat.float], round to nearest
    even, the arithmetic of an x86-64 build without contraction); [size_t]
    and [Time] ([unsigned long]) are 64-bit and are integers of [Z] with the
    wrap-around written where the code can wrap. *)

From Stdlib Require Import ZArith List Bool String Ascii Lia.
From Stdlib Require Import Floats.
Import ListNotations.

Local Open Scope Z_scope.

(** ** Machine numbers *)

Definition double := float.

Definition SIZE_MAX_plus_1 : Z := 2 ^ 64.

(** [size_t] arithmetic wraps modulo 2^64. *)
Definition wrap64 (n : Z) : Z := n mod SIZE_MAX_plus_1.

(** Conversion of an integer to [double] (round to nearest even), as in
    [_query_time_avg *= _query_count]. *)
Definition double_of_Z (n : Z) : double :=
  SF2Prim (binary_normalize prec emax n 0 false).

(** Conversion of a [double] to [size_t] / [Time], as in the second
    constructor of [Domain]: truncation toward zero. C++ leaves the
    conversion of a value outside the target range undefined; here it is 0. *)
Definition size_t_of_double (x : double) : Z :=
  match Prim2SF x with
  | S754_finite false m e =>
      let v := Z.shiftl (Z.pos m) e in
      if v <? SIZE_MAX_plus_1 then v else 0
  | _ => 0
  end.

(** The arithmetic used by the statistics: the one of [double]. *)
Class Arith (F : Type) : Type := {
  num_add : F -> F -> F;
  num_sub : F -> F -> F;
  num_mul : F -> F -> F;
  num_div : F -> F -> F;
  num_sqrt : F -> F;
  num_of_count : Z -> F
}.

#[export] Instance Arith_double : Arith double := {
  num_add := PrimFloat.add;
  num_sub := PrimFloat.sub;
  num_mul := PrimFloat.mul;
  num_div := PrimFloat.div;
  num_sqrt := PrimFloat.sqrt;
  num_of_count := double_of_Z
}.

(** ** Business objects *)

(** Probe event types. *)
Inductive EventType : Type :=
| EV_SEND_REQUEST
| EV_RECV_DATA
| EV_TIMEOUT
| EV_ERROR.

Definition EventType_eqb (a b : EventType) : bool :=
  match a, b with
  | EV_SEND_REQUEST, EV_SEND_REQUEST
  | EV_RECV_DATA, EV_RECV_DATA
  | EV_TIMEOUT, EV_TIMEOUT
  | EV_ERROR, EV_ERROR => true
  | _, _ => false
  end.

(** The [time_t] / [Time] of the code, in seconds. *)
Definition Time := Z.

(** Probe events. *)
Record Event : Type := mkEvent {
  time : Time;
  target : string;
  event : EventType;
  duration : double
}.

(** [std::queue<Event>]: [push] appends at the back, [front]/[pop] take
    from the head. *)
Definition Events := list Event.

(** The SQL statements that [MySQLAccess::saveDomains] sends, by their
    content: the values that the program formats into the text of the
    statement (the text itself, where a [double] is printed with six
    significant digits, is not modelled). [Update_domain] is [UPDATE domain SET ... WHERE rank = r];
    [Insert_measurements] is [INSERT INTO measurement ... VALUES] followed
    by one row per event, each with the rank of its domain. *)
Inductive Statement : Type :=
| Update_domain (name : string) (query_time_avg query_time_stddev : double)
    (query_count : Z) (time_first time_last : Time) (rank : Z)
| Insert_measurements (rows : list (Event * Z)).

(** ** The logger ([src/logger.h]) *)

Module Log.

Inductive Severity : Type :=
| LOG_DEBUG
| LOG_INFO
| LOG_WARN
| LOG_ERROR
| LOG_FATAL.

(** The value of the enumerator. *)
Definition rank_of (s : Severity) : Z :=
  match s with
  | LOG_DEBUG => 0
  | LOG_INFO => 1
  | LOG_WARN => 2
  | LOG_ERROR => 3
  | LOG_FATAL => 4
  end.

(** What a message says. Each constructor is one call of [Log::write] in
    [dnsprobe.h], with the values that the call formats into its text. *)
Inductive Message : Type :=
| Domain_constructed (name : string) (avg stddev count tm_first tm_last : double)
| Updating_domains (sql : Statement)
| Sql_failed (error : string)
| Inserting_measurements (sql : Statement)
| Cannot_send_query (name : string)
| Sending_query (target : string)
| Got_answer (from : option string) (status : Z) (duration : double)
| Probing_all
| Sigalrm_fired
| Application_interrupted.

Record Entry : Type := mkEntry {
  severity : Severity;
  message : Message
}.

(** The static state of the logger: [LOG_LEVEL] and what went to stderr. *)
Record t : Type := mkLog {
  LOG_LEVEL : Z;
  lines : list Entry
}.

(** [Log::write]: the message is dropped when [LOG_LEVEL > severity]. *)
Definition write (msg : Message) (sev : Severity) (lg : t) : t :=
  if LOG_LEVEL lg >? rank_of sev then lg
  else {| LOG_LEVEL := LOG_LEVEL lg; lines := lines lg ++ [mkEntry sev msg] |}.

End Log.

(** ** The random engine of a domain

    [std::default_random_engine] and [std::uniform_int_distribution<int>]
    belong to the C++ library, not to the repository: they are an
    interface here. [engine_seed] is [_PRNG.seed(value)], which puts the
    engine in the state that depends on [value] only; [uniform_int a b] is
    one draw of [std::uniform_int_distribution<int>(a, b)]. *)
Class RandomEngine (G : Type) : Type := {
  engine_default : G;
  engine_seed : Z -> G;
  uniform_int : Z -> Z -> G -> Z * G
}.

(** An engine to run the examples with: the minimal standard generator
    (multiplier 16807, modulus 2^31 - 1) and a draw by remainder. *)
Definition minstd_modulus : Z := 2147483647.

Definition minstd_next (x : Z) : Z := (16807 * x) mod minstd_modulus.

#[export] Instance minstd_rand0 : RandomEngine Z := {
  engine_default := 1;
  engine_seed := fun value =>
    if value mod minstd_modulus =? 0 then 1 else value mod minstd_modulus;
  uniform_int := fun a b g =>
    let g' := minstd_next g in (a + g' mod (b - a + 1), g')
}.

(** ** The domain to be probed *)

Section DomainModel.

Context {G : Type} {RE : RandomEngine G}.

Record Domain : Type := mkDomain {
  _rank : Z;
  _name : string;
  _query_time_avg : double;
  _query_time_stddev : double;
  _query_count : Z;
  _time_first : Time;
  _time_last : Time;
  _events : Events;
  _PRNG : G
}.

Definition getRank (d : Domain) : Z := _rank d.
Definition getName (d : Domain) : string := _name d.
Definition getQueryTimeAvg (d : Domain) : double := _query_time_avg d.
Definition getQueryTimeStdDev (d : Domain) : double := _query_time_stddev d.
Definition getQueryCount (d : Domain) : Z := _query_count d.
Definition getTimeFirst (d : Domain) : Time := _time_first d.
Definition getTimeLast (d : Domain) : Time := _time_last d.
Definition getEvents (d : Domain) : Events := _events d.

Definition with_events (q : Events) (d : Domain) : Domain :=
  mkDomain (_rank d) (_name d) (_query_time_avg d) (_query_time_stddev d)
    (_query_count d) (_time_first d) (_time_last d) q (_PRNG d).

Definition with_times (first last : Time) (d : Domain) : Domain :=
  mkDomain (_rank d) (_name d) (_query_time_avg d) (_query_time_stddev d)
    (_query_count d) first last (_events d) (_PRNG d).

Definition with_stats (avg stddev : double) (count : Z) (d : Domain) : Domain :=
  mkDomain (_rank d) (_name d) avg stddev count
    (_time_first d) (_time_last d) (_events d) (_PRNG d).

Definition with_PRNG (g : G) (d : Domain) : Domain :=
  mkDomain (_rank d) (_name d) (_query_time_avg d) (_query_time_stddev d)
    (_query_count d) (_time_first d) (_time_last d) (_events d) g.

(** The default constructor: the name is empty and the engine is the
    default-constructed one. *)
Definition Domain_default : Domain :=
  mkDomain 0 EmptyString 0%float 0%float 0 0 0 [] engine_default.

(** The hash of the name, [for (;*p; hash ^= *p++)] over [c_str()]: the
    loop stops at the first zero byte; [hash] is an [unsigned char]. *)
Fixpoint name_hash (p : string) (hash : Z) : Z :=
  match p with
  | EmptyString => hash
  | String c p' =>
      if (Z.of_N (N_of_ascii c) =? 0) then hash
      else name_hash p' (Z.lxor hash (Z.of_N (N_of_ascii c)) mod 256)
  end.

(** The constructor from a name. The last three parameters are [double]s
    in the code and are converted to the integer fields. It logs the
    construction and seeds the engine with the hash of the name. *)
Definition Domain_named (name : string) (rank : Z)
    (query_time_avg query_time_stddev query_count time_first time_last : double)
    (lg : Log.t) : Domain * Log.t :=
  let lg := Log.write
              (Log.Domain_constructed name query_time_avg query_time_stddev
                 query_count time_first time_last) Log.LOG_DEBUG lg in
  let hash := name_hash name 0 in
  (mkDomain rank name query_time_avg query_time_stddev
     (size_t_of_double query_count) (size_t_of_double time_first)
     (size_t_of_double time_last) [] (engine_seed hash), lg).

(** [Domain(name)]: every other parameter at its default value. *)
Definition Domain_of_name (name : string) (lg : Log.t) : Domain * Log.t :=
  Domain_named name 0 0%float 0%float 0%float 0%float 0%float lg.

(** The arithmetic of [update], in the order of the code. The result is
    the new average and the new standard deviation; the new count is
    [wrap64 (n + 1)]. *)
Definition update_stats {F : Type} {A : Arith F}
    (query_time_avg query_time_stddev : F) (query_count : Z) (d : F) : F * F :=
  let old_avg := query_time_avg in
  (* Update the sum of times *)
  let query_time_avg := num_mul query_time_avg (num_of_count query_count) in
  let query_time_avg := num_add query_time_avg d in
  (* Calculate the current sum of squared times *)
  let sqr_avg := num_add (num_mul old_avg old_avg)
                   (num_mul query_time_stddev query_time_stddev) in
  let sqr_avg := num_mul sqr_avg (num_of_count query_count) in
  let sqr_avg := num_add sqr_avg (num_mul d d) in
  let query_count := wrap64 (query_count + 1) in
  (* calculate the new mean and the quadratic mean *)
  let query_time_avg := num_div query_time_avg (num_of_count query_count) in
  let sqr_avg := num_div sqr_avg (num_of_count query_count) in
  (* the biased stddev from the avg and the quadratic avg *)
  let query_time_stddev :=
    num_sub sqr_avg (num_mul query_time_avg query_time_avg) in
  let query_time_stddev := num_sqrt query_time_stddev in
  (query_time_avg, query_time_stddev).

(** [Domain::update]. *)
Definition update (d : Domain) (ev : Event) : bool * Domain :=
  (* Save current event *)
  let d := with_events (_events d ++ [ev]) d in
  if negb (EventType_eqb (event ev) EV_RECV_DATA) then (false, d)
  else
    let first := if _time_first d =? 0 then time ev else _time_first d in
    let d := with_times first (time ev) d in
    let '(avg, stddev) :=
      update_stats (_query_time_avg d) (_query_time_stddev d)
        (_query_count d) (duration ev) in
    (true, with_stats avg stddev (wrap64 (_query_count d + 1)) d).

(** The characters of a random target: [target_len] draws, each an
    [unsigned char] below 36 mapped to a letter or a digit. *)
Fixpoint random_chars (target_len : nat) (g : G) (str : string) : string * G :=
  match target_len with
  | O => (str, g)
  | S n =>
      let '(r, g) := uniform_int 0 35 g in
      let c := r mod 256 in
      let ch := if c <? 26 then (97 + c) mod 256 else (48 + c - 26) mod 256 in
      random_chars n g (str ++ String (ascii_of_N (Z.to_N ch)) EmptyString)
  end.

(** [Domain::getRandomTarget]: the loop runs while [target_len > 0]. *)
Definition getRandomTarget (d : Domain) : string * Domain :=
  let '(target_len, g) := uniform_int 4 10 (_PRNG d) in
  let '(str, g) := random_chars (Z.to_nat target_len) g EmptyString in
  (str, with_PRNG g d).

(** Folding a list of events into a domain, one [update] at a time. *)
Definition update_all (d : Domain) (evs : list Event) : Domain :=
  fold_left (fun d ev => snd (update d ev)) evs d.

(** The domains after each update: the prefix states of [update_all]. *)
Fixpoint update_trace (d : Domain) (evs : list Event) : list Domain :=
  match evs with
  | [] => []
  | ev :: evs' => let d' := snd (update d ev) in d' :: update_trace d' evs'
  end.

(** [n] successive calls of [getRandomTarget]. *)
Fixpoint random_targets (n : nat) (d : Domain) : list string * Domain :=
  match n with
  | O => ([], d)
  | S n' =>
      let '(s, d) := getRandomTarget d in
      let '(l, d) := random_targets n' d in
      (s :: l, d)
  end.

End DomainModel.

Arguments Domain G : clear implicits.


(** ** Database *)

(** The result of [query.execute()] on a connection that does not throw
    ([_connection(bool(false))]): success, or failure with the text of
    [query.error()]. *)
Inductive Outcome : Type :=
| Done
| Failed (error : string).

(** [mysqlpp::Connection], by what [saveDomains] asks of it: the execution
    of one statement, which may change the state behind the connection. *)
Class Connection (C : Type) : Type := {
  execute : Statement -> C -> Outcome * C
}.

(** A connection to run the examples with: it records every statement it
    receives and answers all of them the same way. *)
Record Recorder : Type := mkRecorder {
  answer : Outcome;
  received : list Statement
}.

#[export] Instance Recorder_connection : Connection Recorder := {
  execute := fun sql c => (answer c, mkRecorder (answer c) (received c ++ [sql]))
}.

Section Database.

Context {G : Type} {RE : RandomEngine G}.

(** [DBAccess], by the one operation that the vantage point calls after
    start-up. *)
Class DBAccess (A : Type) : Type := {
  saveDomains : list (Domain G) -> A -> Log.t -> bool * list (Domain G) * A * Log.t
}.

Context {C : Type} {CN : Connection C}.

(** The error branch after [query.execute()]. *)
Definition report_failure (r : Outcome) (lg : Log.t) : Log.t :=
  match r with
  | Done => lg
  | Failed error => Log.write (Log.Sql_failed error) Log.LOG_ERROR lg
  end.

(** The body of the first loop of [saveDomains]: one [UPDATE] per domain. *)
Definition update_domain (st : C * Log.t) (domain : Domain G) : C * Log.t :=
  let '(c, lg) := st in
  let sql :=
    Update_domain (getName domain) (getQueryTimeAvg domain)
      (getQueryTimeStdDev domain) (getQueryCount domain)
      (getTimeFirst domain) (getTimeLast domain) (getRank domain) in
  let lg := Log.write (Log.Updating_domains sql) Log.LOG_DEBUG lg in
  let '(r, c) := execute sql c in
  (c, report_failure r lg).

(** [while (!domain.getEvents().empty())]: the front event becomes a row
    and is popped. The result is the queue that is left and the rows. *)
Fixpoint drain_events (q : Events) (rank : Z) (rows : list (Event * Z))
  : Events * list (Event * Z) :=
  match q with
  | [] => (q, rows)
  | ev :: q' => drain_events q' rank (rows ++ [(ev, rank)])
  end.

(** The second loop of [saveDomains], over all domains. *)
Fixpoint collect_measurements (domains : list (Domain G)) (rows : list (Event * Z))
  : list (Domain G) * list (Event * Z) :=
  match domains with
  | [] => ([], rows)
  | domain :: rest =>
      let '(q, rows) := drain_events (getEvents domain) (getRank domain) rows in
      let '(rest, rows) := collect_measurements rest rows in
      (with_events q domain :: rest, rows)
  end.

(** [MySQLAccess::saveDomains]. *)
Definition MySQL_saveDomains (domains : list (Domain G)) (c : C) (lg : Log.t)
  : bool * list (Domain G) * C * Log.t :=
  if Z.of_nat (List.length domains) =? 0 then (false, domains, c, lg)
  else
    (* Update domains *)
    let '(c, lg) := fold_left update_domain domains (c, lg) in
    (* Insert measurements *)
    let '(domains, rows) := collect_measurements domains [] in
    let sql := Insert_measurements rows in
    let '(r, c) := execute sql c in
    let lg := report_failure r lg in
    let lg := Log.write (Log.Inserting_measurements sql) Log.LOG_DEBUG lg in
    (true, domains, c, lg).

#[export] Instance MySQLAccess : DBAccess C := {
  saveDomains := MySQL_saveDomains
}.

End Database.

(** ** Network communication *)

(** Remote host reply. *)
Module Reply.

Record t : Type := mk {
  time : Time;
  target : string;
  event : EventType;
  duration : double
}.

End Reply.

(** What the DNS variant reads from the resolver library and the clock. *)
Record timespec : Type := mkTimespec {
  tv_sec : Z;
  tv_nsec : Z
}.

Record ldns_pkt : Type := mkPkt {
  ldns_pkt_qr : bool;
  ldns_pkt_timestamp : Z;      (* [tv_sec] of the packet's timestamp *)
  ldns_pkt_querytime : Z;      (* [uint32_t], milliseconds *)
  ldns_pkt_answerfrom : string
}.

Definition ldns_status := Z.
Definition LDNS_STATUS_OK : ldns_status := 0.

(** The outside world of a probe: the calendar time, the real-time clock
    and the resolver, each a call that may change the world. *)
Class Resolver (W : Type) : Type := {
  time_0 : W -> Z * W;
  clock_gettime : W -> timespec * W;
  ldns_resolver_query_status : string -> W -> (option ldns_pkt * ldns_status) * W
}.

(** A world to run the examples with: a clock in nanoseconds that every
    reading advances by [tick], and the list of the answers to come. *)
Record Script : Type := mkScript {
  clock_ns : Z;
  tick : Z;
  answers : list (option ldns_pkt * ldns_status)
}.

#[export] Instance Script_resolver : Resolver Script := {
  time_0 := fun w => (clock_ns w / 1000000000, w);
  clock_gettime := fun w =>
    (mkTimespec (clock_ns w / 1000000000) (clock_ns w mod 1000000000),
     mkScript (clock_ns w + tick w) (tick w) (answers w));
  ldns_resolver_query_status := fun _ w =>
    match answers w with
    | [] => ((None, 1), w)
    | a :: rest => (a, mkScript (clock_ns w) (tick w) rest)
    end
}.

Section Probing.

Context {G : Type} {RE : RandomEngine G}.
Context {W : Type}.

(** [RemoteQuery]: the variants differ by [sendQuery], which works on the
    bound domain, the world and the log. *)
Class RemoteQuery (Q : Type) : Type := {
  sendQuery : Q -> Domain G -> W -> Log.t -> (Reply.t * bool) * Domain G * W * Log.t
}.

(** [RemoteQuery::probe]. *)
Definition probe {Q : Type} {RQ : RemoteQuery Q} (q : Q)
    (p_domain : Domain G) (w : W) (lg : Log.t) : bool * Domain G * W * Log.t :=
  (* Send query *)
  let '(reply, p_domain, w, lg) := sendQuery q p_domain w lg in
  (* Process reply *)
  let lg :=
    if negb (snd reply)
    then Log.write (Log.Cannot_send_query (getName p_domain)) Log.LOG_ERROR lg
    else lg in
  (* Update the domain *)
  let '(_, p_domain) :=
    update p_domain
      (mkEvent (Reply.time (fst reply)) (Reply.target (fst reply))
         (Reply.event (fst reply)) (Reply.duration (fst reply))) in
  (snd reply, p_domain, w, lg).

Context {RS : Resolver W}.

(** The resolver handles of a [DNSQuery]; [sendQuery] does not change them. *)
Record DNSQuery : Type := mkDNSQuery {
  _ns_retry : Z
}.

Definition SEC_TO_MILLI : double := 1e3%float.
Definition MILLI_TO_NANO : double := 1e3%float.

(** The duration that [DNSQuery::sendQuery] computes from the two readings
    of the clock. *)
Definition measured_duration (start_time end_time : timespec) : double :=
  (double_of_Z (tv_sec end_time - tv_sec start_time) * SEC_TO_MILLI
   + double_of_Z (tv_nsec end_time - tv_nsec start_time) / MILLI_TO_NANO)%float.

(** [DNSQuery::sendQuery]. *)
Definition DNS_sendQuery (q : DNSQuery) (p_domain : Domain G) (w : W) (lg : Log.t)
  : (Reply.t * bool) * Domain G * W * Log.t :=
  (* By default the event is the request. *)
  let '(label, p_domain) := getRandomTarget p_domain in
  let reply_target := (label ++ "." ++ getName p_domain)%string in
  let '(now, w) := time_0 w in
  let reply_time := wrap64 now in
  let reply_event := EV_SEND_REQUEST in
  let lg := Log.write (Log.Sending_query reply_target) Log.LOG_INFO lg in
  (* Measure query duration *)
  let '(start_time, w) := clock_gettime w in
  let '(packet, query_status, w) := ldns_resolver_query_status (getName p_domain) w in
  let '(end_time, w) := clock_gettime w in
  (* Set the duration in ms *)
  let reply_duration := measured_duration start_time end_time in
  let '(reply_time, reply_event, reply_duration, lg) :=
    match packet with
    | Some pkt =>
        if ldns_pkt_qr pkt then
          (* If a packet was received *)
          let reply_event := EV_RECV_DATA in
          let '(reply_time, reply_duration, reply_ns_str) :=
            if query_status =? LDNS_STATUS_OK
            then (wrap64 (ldns_pkt_timestamp pkt),
                  double_of_Z (ldns_pkt_querytime pkt),
                  Some (ldns_pkt_answerfrom pkt))
            else (reply_time, reply_duration, None) in
          (reply_time, reply_event, reply_duration,
           Log.write (Log.Got_answer reply_ns_str query_status reply_duration)
             Log.LOG_INFO lg)
        else (reply_time, reply_event, reply_duration, lg)
    | None => (reply_time, reply_event, reply_duration, lg)
    end in
  (Reply.mk reply_time reply_target reply_event reply_duration, true,
   p_domain, w, lg).

#[export] Instance DNSQuery_RemoteQuery : RemoteQuery DNSQuery := {
  sendQuery := DNS_sendQuery
}.

End Probing.

(** ** Vantage point *)

(** The signals that [sigHandler] tells apart. *)
Inductive Signal : Type :=
| SIGALRM
| SIGINT
| SIGHUP
| SIGTERM
| SIG_other (sig : Z).

(** The calls of [Vantage::save] and [Vantage::probe], recorded in the
    order they are made; the program does not read this history. *)
Inductive Call : Type :=
| Call_save
| Call_probe.

(** [v[i] = x] on a vector, for an index in range. *)
Fixpoint assign_nth {T : Type} (i : nat) (x : T) (v : list T) : list T :=
  match v, i with
  | [], _ => []
  | _ :: v', O => x :: v'
  | y :: v', S i' => y :: assign_nth i' x v'
  end.

Section VantagePoint.

Context {G : Type} {RE : RandomEngine G}.
Context {W : Type} {Q : Type} {RQ : RemoteQuery (G := G) (W := W) Q}.
Context {A : Type} {DB : DBAccess (G := G) A}.

(** The singleton. A remote query points to its domain in [_domains]: the
    pointer is the index of the domain. *)
Record Vantage : Type := mkVantage {
  _probe_interval : Time;
  _dbupdate_freq : double;
  _domains : list (Domain G);
  _remoteQueries : list (string * (Q * nat));
  _dbaccess : A;
  _flag_stop : bool
}.

(** The state of the process that the handler works on: the singleton,
    the static counter of [sigHandler], the world and the log. *)
Record Process : Type := mkProcess {
  instance : Vantage;
  alarm_counter : Z;
  world : W;
  log : Log.t;
  calls : list Call
}.

(** [Vantage::save]. *)
Definition Vantage_save (p : Process) : Process :=
  let v := instance p in
  let '(_, domains, db, lg) := saveDomains (_domains v) (_dbaccess v) (log p) in
  mkProcess
    (mkVantage (_probe_interval v) (_dbupdate_freq v) domains
       (_remoteQueries v) db (_flag_stop v))
    (alarm_counter p) (world p) lg (calls p ++ [Call_save]).

(** One iteration of the loop of [Vantage::probe]. *)
Definition probe_one (st : list (Domain G) * W * Log.t)
    (remoteQuery : string * (Q * nat)) : list (Domain G) * W * Log.t :=
  let '(domains, w, lg) := st in
  let '(q, i) := snd remoteQuery in
  match nth_error domains i with
  | Some d =>
      let '(_, d, w, lg) := probe q d w lg in
      (assign_nth i d domains, w, lg)
  | None => st
  end.

(** [Vantage::probe]. *)
Definition Vantage_probe (p : Process) : Process :=
  let v := instance p in
  let lg := Log.write Log.Probing_all Log.LOG_DEBUG (log p) in
  let '(domains, w, lg) :=
    fold_left probe_one (_remoteQueries v) (_domains v, world p, lg) in
  mkProcess
    (mkVantage (_probe_interval v) (_dbupdate_freq v) domains
       (_remoteQueries v) (_dbaccess v) (_flag_stop v))
    (alarm_counter p) w lg (calls p ++ [Call_probe]).

(** [Vantage::stop]. *)
Definition Vantage_stop (p : Process) : Process :=
  let p := Vantage_save p in
  let v := instance p in
  mkProcess
    (mkVantage (_probe_interval v) (_dbupdate_freq v) (_domains v)
       (_remoteQueries v) (_dbaccess v) true)
    (alarm_counter p) (world p) (log p) (calls p).

Definition with_alarm_counter (n : Z) (p : Process) : Process :=
  mkProcess (instance p) n (world p) (log p) (calls p).

Definition with_log (lg : Log.t) (p : Process) : Process :=
  mkProcess (instance p) (alarm_counter p) (world p) lg (calls p).

(** [alarm_counter >= _dbupdate_freq]: the counter is converted to
    [double] and the comparison is the one of [double]. *)
Definition counter_reached (counter : Z) (dbupdate_freq : double) : bool :=
  (dbupdate_freq <=? double_of_Z counter)%float.

(** [Vantage::sigHandler]. *)
Definition sigHandler (sig : Signal) (p : Process) : Process :=
  match sig with
  | SIGALRM =>
      let p := with_alarm_counter (wrap64 (alarm_counter p + 1)) p in
      let p :=
        if counter_reached (alarm_counter p) (_dbupdate_freq (instance p))
        then with_alarm_counter 0 (Vantage_save p)
        else p in
      let p := Vantage_probe p in
      with_log (Log.write Log.Sigalrm_fired Log.LOG_DEBUG (log p)) p
  | SIGINT | SIGHUP | SIGTERM =>
      let p := with_log
                 (Log.write Log.Application_interrupted Log.LOG_DEBUG (log p)) p in
      Vantage_stop p
  | SIG_other _ => p
  end.

(** The timer firing [n] times in a row. *)
Fixpoint ticks (n : nat) (p : Process) : Process :=
  match n with
  | O => p
  | S n' => ticks n' (sigHandler SIGALRM p)
  end.

End VantagePoint.

(** * Vocabulary of the statements *)

(** Every [EV_RECV_DATA] event of a list is stamped not before the first
    time in force when it is folded, or is folded while the first time is
    still 0 (unset). [first] is the first time before the list; it
    follows [timeFirst] through the list. *)
Fixpoint stamps_from (first : Time) (evs : list Event) : Prop :=
  match evs with
  | [] => True
  | ev :: evs' =>
      if EventType_eqb (event ev) EV_RECV_DATA
      then (first = 0 \/ first <= time ev) /\
           stamps_from (if first =? 0 then time ev else first) evs'
      else stamps_from first evs'
  end.

(** The bytes of [c_str()]: the characters before the first zero byte. *)
Fixpoint c_str (s : string) : list Z :=
  match s with
  | EmptyString => []
  | String c s' =>
      if Z.of_N (N_of_ascii c) =? 0 then [] else Z.of_N (N_of_ascii c) :: c_str s'
  end.

(** [b0 ^ b1 ^ ...] from the left. *)
Definition xor_fold (bytes : list Z) : Z := fold_left Z.lxor bytes 0.

(** The rows of the [INSERT] statement for a list of domains: every
    pending event, domain after domain, first in first. *)
Definition pending_rows {G : Type} (domains : list (Domain G)) : list (Event * Z) :=
  flat_map (fun d => map (fun ev => (ev, getRank d)) (getEvents d)) domains.


(** The statistics of section 4.1 of the specification, in its words:
    the variance is clamped to 0 from below before the square root. *)
Definition spec_update_stats (avg_old std_old : double) (n : Z) (d : double)
  : double * double :=
  let sum_new := (avg_old * double_of_Z n + d)%float in
  let sqAvg_old := (avg_old * avg_old + std_old * std_old)%float in
  let sqSum_new := (sqAvg_old * double_of_Z n + d * d)%float in
  let n' := n + 1 in
  let avg_new := (sum_new / double_of_Z n')%float in
  let sqAvg_new := (sqSum_new / double_of_Z n')%float in
  let var_new := (sqAvg_new - avg_new * avg_new)%float in
  let var_new := if (var_new <? 0)%float then 0%float else var_new in
  (avg_new, PrimFloat.sqrt var_new).

(** A variant whose [sendQuery] always fails: it reports an error reply
    and the flag [false], and touches nothing. *)
Record Unreachable : Type := mkUnreachable {
  unreachable_since : Time
}.

#[export] Instance Unreachable_RemoteQuery {G : Type} {RE : RandomEngine G} {W : Type}
  : RemoteQuery (G := G) (W := W) Unreachable := {
  sendQuery := fun q d w lg =>
    (Reply.mk (unreachable_since q) (getName d) EV_ERROR 0%float, false, d, w, lg)
}.

(** The event that [probe] makes of a reply. *)
Definition event_of_reply (r : Reply.t) : Event :=
  mkEvent (Reply.time r) (Reply.target r) (Reply.event r) (Reply.duration r).

(** A packet was received and is a response: [packet && ldns_pkt_qr(packet)]. *)
Definition answered (packet : option ldns_pkt) : bool :=
  match packet with
  | Some pkt => ldns_pkt_qr pkt
  | None => false
  end.

(** * Sample inputs *)

Definition log_0 : Log.t := Log.mkLog 0 [].

(** [Domain("example.com")] with the sample engine. *)
Definition example_domain : Domain Z :=
  fst (Domain_of_name "example.com" log_0).

Definition answer_at (t : Time) (ms : double) : Event :=
  mkEvent t "probe.example.com" EV_RECV_DATA ms.

Definition timeout_at (t : Time) : Event :=
  mkEvent t "probe.example.com" EV_TIMEOUT 0%float.

(** The [double] nearest to one tenth (of a millisecond). *)
Definition one_tenth : double := (1 / 10)%float.

Definition example_query : DNSQuery := mkDNSQuery 2.

(** The clock starts at 1700000000 s and every reading advances it by
    250 microseconds. *)
Definition example_world (answers : list (option ldns_pkt * ldns_status)) : Script :=
  mkScript 1700000000000000000 250000 answers.

Definition example_process (domains : list (Domain Z)) (db : Recorder)
    (answers : list (option ldns_pkt * ldns_status))
  : Process (G := Z) (W := Script) (Q := DNSQuery) (A := Recorder) :=
  mkProcess
    (mkVantage 1000 4%float domains
       [("example.com"%string, (example_query, 0%nat))] db false)
    0 (example_world answers) log_0 [].

(** A response packet that comes with the status 5, which is not OK. *)
Definition refused_answer : option ldns_pkt * ldns_status :=
  (Some (mkPkt true 1700000001 12 "ns1.example.com"), 5).

(** A domain with two pending events. *)
Definition busy_domain : Domain Z :=
  update_all example_domain [timeout_at 1; answer_at 2 10%float].

Definition failing_db : Recorder := mkRecorder (Failed "server has gone away") [].

(** * Vocabulary of the further statements *)

From Stdlib Require Import Permutation.

(** A lowercase letter or a digit. *)
Definition label_char (c : ascii) : bool :=
  let n := Z.of_N (N_of_ascii c) in
  ((97 <=? n) && (n <=? 122)) || ((48 <=? n) && (n <=? 57)).

(** The event is an answer. *)
Definition is_recv (ev : Event) : bool := EventType_eqb (event ev) EV_RECV_DATA.

(** A sequence of calls of [Log::write]. *)
Definition write_all (calls : list (Log.Message * Log.Severity)) (lg : Log.t) : Log.t :=
  fold_left (fun lg c => Log.write (fst c) (snd c) lg) calls lg.

(** The message is printed at the level [level]. *)
Definition printed (level : Z) (c : Log.Message * Log.Severity) : bool :=
  level <=? Log.rank_of (snd c).

(** The [UPDATE] statement of one domain. *)
Definition update_statement {G : Type} (d : Domain G) : Statement :=
  Update_domain (getName d) (getQueryTimeAvg d) (getQueryTimeStdDev d)
    (getQueryCount d) (getTimeFirst d) (getTimeLast d) (getRank d).

(** The statements of one [saveDomains], in the order they are sent. *)
Definition sent_statements {G : Type} (domains : list (Domain G)) : list Statement :=
  map update_statement domains ++ [Insert_measurements (pending_rows domains)].

(** The connection after a list of statements, executed in order. *)
Definition execute_all {C : Type} {CN : Connection C} (sqls : list Statement) (c : C) : C :=
  fold_left (fun c sql => snd (execute sql c)) sqls c.

(** The statements of a flush: those of one [saveDomains], none for an
    empty collection. *)
Definition flush_statements {G : Type} (domains : list (Domain G)) : list Statement :=
  match domains with
  | [] => []
  | _ => sent_statements domains
  end.

(** The list is not empty. *)
Definition nonempty {T : Type} (l : list T) : bool :=
  match l with
  | [] => false
  | _ => true
  end.

(** The contract of [std::uniform_int_distribution<int>(a, b)]: a draw
    lies between [a] and [b]. *)
Definition draws_in_range (G : Type) {RE : RandomEngine G} : Prop :=
  forall (a b : Z) (g : G), a <= b -> a <= fst (uniform_int a b g) <= b.

(** The packet of an answered query, with the fields that the reply takes
    from it when the status is OK. *)
Definition answer_time (packet : option ldns_pkt) : Z :=
  match packet with
  | Some pkt => ldns_pkt_timestamp pkt
  | None => 0
  end.

Definition answer_querytime (packet : option ldns_pkt) : Z :=
  match packet with
  | Some pkt => ldns_pkt_querytime pkt
  | None => 0
  end.

(** The number of remote queries bound to the domain of index [j]. *)
Definition bound_count {Q : Type} (j : nat) (rqs : list (string * (Q * nat))) : nat :=
  List.length (filter (fun rq => Nat.eqb (snd (snd rq)) j) rqs).

(** A sequence of signals, handled one after the other. *)
Definition signals {G W Q A : Type} {RE : RandomEngine G}
    {RQ : RemoteQuery (G := G) (W := W) Q} {DB : DBAccess (G := G) A}
    (sigs : list Signal) (p : Process (G := G) (W := W) (Q := Q) (A := A))
  : Process (G := G) (W := W) (Q := Q) (A := A) :=
  fold_left (fun p sig => sigHandler sig p) sigs p.

Definition is_alarm (sig : Signal) : bool :=
  match sig with
  | SIGALRM => true
  | _ => false
  end.

Definition is_termination (sig : Signal) : bool :=
  match sig with
  | SIGINT | SIGHUP | SIGTERM => true
  | _ => false
  end.

(** A response packet that comes with the status OK. *)
Definition ok_answer : option ldns_pkt * ldns_status :=
  (Some (mkPkt true 1700000001 12 "ns1.example.com"), LDNS_STATUS_OK).

(** * The management of the domains ([src/ProbeMain.cpp])

    The messages of [Log::write] that only this part of the program
    writes. The log of this part holds them together with the messages
    of the part above, in the order they are written. *)
Inductive AdminStatement : Type :=
| Select_domains
| Insert_domains (rows : list (string * double * double * Z * Time * Time))
| Delete_domains (names : list string).

Inductive Notice : Type :=
| Loading_domains
| Inserting_domains (sql : AdminStatement)
| Deleting_domains (sql : AdminStatement)
| Already_in_database (name : string).

Record Journal : Type := mkJournal {
  journal_level : Z;
  journal_lines : list (Log.Severity * (Log.Message + Notice))
}.

(** [Log::write] with a message of this part. *)
Definition note (n : Notice) (sev : Log.Severity) (j : Journal) : Journal :=
  if journal_level j >? Log.rank_of sev then j
  else mkJournal (journal_level j) (journal_lines j ++ [(sev, inr n)]).

(** A step of the part above, which writes to the same log: what it
    writes at the level of the journal is appended to the journal. *)
Definition logged {T : Type} (step : Log.t -> T * Log.t) (j : Journal) : T * Journal :=
  let '(x, lg) := step (Log.mkLog (journal_level j) []) in
  (x, mkJournal (journal_level j)
        (journal_lines j ++
         map (fun e => (Log.severity e, inl (Log.message e))) (Log.lines lg))).

(** [strncmp(s1, s2, n)] on the bytes of two C strings (the end of a list
    is the terminating zero): the difference of the first two bytes that
    differ among the first [n], and 0 when there is none before the end
    of the strings. The program only tests the result against 0. *)
Fixpoint strncmp (s1 s2 : list Z) (n : nat) : Z :=
  match n with
  | O => 0
  | S n' =>
      let c1 := hd 0 s1 in
      let c2 := hd 0 s2 in
      if c1 =? c2
      then (if c1 =? 0 then 0 else strncmp (tl s1) (tl s2) n')
      else c1 - c2
  end.

Section AddDomains.

Context {G : Type} {RE : RandomEngine G}.

(** The inner loop of the insertion in [main]: the search of [arg] among
    the domains of the database, up to the first match. *)
Fixpoint already_exists (old_domains : list (Domain G)) (arg : string) (j : Journal)
  : bool * Journal :=
  match old_domains with
  | [] => (false, j)
  | domain :: rest =>
      if strncmp (c_str (getName domain)) (c_str arg)
           (String.length (getName domain)) =? 0
      then (true, note (Already_in_database (getName domain)) Log.LOG_DEBUG j)
      else already_exists rest arg j
  end.

(** The outer loop: the domains to insert, built from the arguments of
    the command line that were not found. *)
Fixpoint new_domains (old_domains : list (Domain G)) (args : list string)
    (domains : list (Domain G)) (j : Journal) : list (Domain G) * Journal :=
  match args with
  | [] => (domains, j)
  | arg :: rest =>
      let '(b_exists, j) := already_exists old_domains arg j in
      if negb b_exists
      then
        let '(d, j) := logged (Domain_of_name arg) j in
        new_domains old_domains rest (domains ++ [d]) j
      else new_domains old_domains rest domains j
  end.

End AddDomains.

(** The name has no zero byte. *)
Definition no_zero_byte (name : string) : Prop :=
  Forall (fun c => Z.of_N (N_of_ascii c) <> 0) (list_ascii_of_string name).

(** No name of [old_names] is a prefix of [arg]. *)
Definition is_new (old_names : list string) (arg : string) : bool :=
  negb (existsb (fun name => String.prefix name arg) old_names).

Definition empty_journal : Journal := mkJournal 0 [].

(** The connection, by what the insertion and the deletion of domains
    ask of it. *)
Class AdminConnection (C : Type) : Type := {
  execute_admin : AdminStatement -> C -> Outcome * C
}.

(** A database to run the examples with: whether it accepts the
    statements, and the statements it received. *)
Record Table : Type := mkTable {
  table_ok : bool;
  table_received : list AdminStatement
}.

#[export] Instance Table_connection : AdminConnection Table := {
  execute_admin := fun sql t =>
    (if table_ok t then Done else Failed "no such table",
     mkTable (table_ok t) (table_received t ++ [sql]))
}.

Section Management.

Context {G : Type} {RE : RandomEngine G}.
Context {C : Type} {AC : AdminConnection C}.

(** The error branch after a statement, in the journal. *)
Definition note_failure (r : Outcome) (j : Journal) : Journal :=
  snd (logged (fun lg => (tt, report_failure r lg)) j).

(** The row of one domain in the statement of [addDomains]. *)
Definition insert_row (domain : Domain G)
  : string * double * double * Z * Time * Time :=
  (getName domain, getQueryTimeAvg domain, getQueryTimeStdDev domain,
   getQueryCount domain, getTimeFirst domain, getTimeLast domain).

(** [MySQLAccess::addDomains]. *)
Definition addDomains (domains : list (Domain G)) (c : C) (j : Journal)
  : bool * C * Journal :=
  if Z.of_nat (List.length domains) =? 0 then (false, c, j)
  else
    let sql := Insert_domains (map insert_row domains) in
    let j := note (Inserting_domains sql) Log.LOG_DEBUG j in
    let '(r, c) := execute_admin sql c in
    (true, c, note_failure r j).

(** [MySQLAccess::deleteDomains]. *)
Definition deleteDomains (domains : list (Domain G)) (c : C) (j : Journal)
  : bool * C * Journal :=
  if Z.of_nat (List.length domains) =? 0 then (false, c, j)
  else
    let sql := Delete_domains (map getName domains) in
    let j := note (Deleting_domains sql) Log.LOG_DEBUG j in
    let '(r, c) := execute_admin sql c in
    (true, c, note_failure r j).

(** The domains that [main] builds from the names to delete. *)
Fixpoint named_domains (args : list string) (domains : list (Domain G)) (j : Journal)
  : list (Domain G) * Journal :=
  match args with
  | [] => (domains, j)
  | arg :: rest =>
      let '(d, j) := logged (Domain_of_name arg) j in
      named_domains rest (domains ++ [d]) j
  end.

(** The deletion in [main]: every name of the command line becomes a
    domain and the domains are deleted. *)
Definition delete_listed (args : list string) (c : C) (j : Journal)
  : bool * C * Journal :=
  let '(domains, j) := named_domains args [] j in
  deleteDomains domains c j.

(** The insertion in [main], from the point where the domains of the
    database are in [old_domains]: the new domains are selected and
    inserted. *)
Definition insert_new (old_domains : list (Domain G)) (args : list string)
    (c : C) (j : Journal) : bool * C * Journal :=
  let '(domains, j) := new_domains old_domains args [] j in
  addDomains domains c j.

End Management.

(** The row that is inserted for a new name. *)
Definition fresh_row (name : string) : string * double * double * Z * Time * Time :=
  (name, 0%float, 0%float, 0, 0, 0).

(** The connection after the statement [sql], or as it was when there is
    no name to put in the statement. *)
Definition after_statement {T C : Type} {AC : AdminConnection C}
    (names : list T) (sql : AdminStatement) (c : C) : C :=
  match names with
  | [] => c
  | _ => snd (execute_admin sql c)
  end.

(** The first timestamp of a list that is not 0, and 0 when there is none. *)
Definition first_nonzero (ts : list Time) : Time :=
  hd 0 (filter (fun t => negb (t =? 0)) ts).

(** The timestamps of the answers of a list of events. *)
Definition answer_times (evs : list Event) : list Time :=
  map time (filter is_recv evs).

(** * Properties *)

Lemma EventType_eqb_eq (a b : EventType) : EventType_eqb a b = true <-> a = b.
Proof. destruct a, b; simpl; split; intro E; congruence. Qed.

Lemma EventType_eqb_neq (a b : EventType) : EventType_eqb a b = false <-> a <> b.
Proof. destruct a, b; simpl; split; intro E; congruence. Qed.


(** ** Domain: the events that are not answers *)

Section DomainProperties.

Context {G : Type} {RE : RandomEngine G}.

Lemma update_not_recv (d : Domain G) (ev : Event) :
  event ev <> EV_RECV_DATA ->
  update d ev = (false, with_events (_events d ++ [ev]) d).
Proof.
  intros Hk. unfold update.
  apply EventType_eqb_neq in Hk. rewrite Hk. reflexivity.
Qed.

Lemma update_recv (d : Domain G) (ev : Event) :
  event ev = EV_RECV_DATA ->
  update d ev =
    (true,
     mkDomain (_rank d) (_name d)
       (fst (update_stats (_query_time_avg d) (_query_time_stddev d)
               (_query_count d) (duration ev)))
       (snd (update_stats (_query_time_avg d) (_query_time_stddev d)
               (_query_count d) (duration ev)))
       (wrap64 (_query_count d + 1))
       (if _time_first d =? 0 then time ev else _time_first d)
       (time ev) (_events d ++ [ev]) (_PRNG d)).
Proof.
  intros Hk. unfold update.
  apply EventType_eqb_eq in Hk. rewrite Hk. cbn [negb].
  unfold with_stats, with_times, with_events.
  cbn [_rank _name _query_time_avg _query_time_stddev _query_count
       _time_first _time_last _events _PRNG].
  destruct (update_stats (_query_time_avg d) (_query_time_stddev d)
              (_query_count d) (duration ev)) as [avg stddev].
  reflexivity.
Qed.

(** C8. An event whose kind is not [EV_RECV_DATA] is appended to the
    queue, [update] returns [false], and the average, the standard
    deviation, the count, [timeFirst] and [timeLast] (as well as the rank,
    the name and the generator) are what they were. *)
Theorem update_other_event_frame (d : Domain G) (ev : Event) :
  event ev <> EV_RECV_DATA ->
  fst (update d ev) = false /\
  _events (snd (update d ev)) = _events d ++ [ev] /\
  _query_time_avg (snd (update d ev)) = _query_time_avg d /\
  _query_time_stddev (snd (update d ev)) = _query_time_stddev d /\
  _query_count (snd (update d ev)) = _query_count d /\
  _time_first (snd (update d ev)) = _time_first d /\
  _time_last (snd (update d ev)) = _time_last d /\
  _rank (snd (update d ev)) = _rank d /\
  _name (snd (update d ev)) = _name d /\
  _PRNG (snd (update d ev)) = _PRNG d.
Proof.
  intros Hk. rewrite (update_not_recv d ev Hk). simpl.
  repeat split.
Qed.

(** Every update appends its event, whatever the kind. *)
Lemma update_enqueues (d : Domain G) (ev : Event) :
  _events (snd (update d ev)) = _events d ++ [ev].
Proof.
  destruct (EventType_eqb (event ev) EV_RECV_DATA) eqn:Hk.
  - apply EventType_eqb_eq in Hk. rewrite (update_recv d ev Hk). reflexivity.
  - apply EventType_eqb_neq in Hk. rewrite (update_not_recv d ev Hk). reflexivity.
Qed.

Lemma update_PRNG (d : Domain G) (ev : Event) :
  _PRNG (snd (update d ev)) = _PRNG d.
Proof.
  destruct (EventType_eqb (event ev) EV_RECV_DATA) eqn:Hk.
  - apply EventType_eqb_eq in Hk. rewrite (update_recv d ev Hk). reflexivity.
  - apply EventType_eqb_neq in Hk. rewrite (update_not_recv d ev Hk). reflexivity.
Qed.

Lemma update_all_PRNG (evs : list Event) (d : Domain G) :
  _PRNG (update_all d evs) = _PRNG d.
Proof.
  revert d. induction evs as [|ev evs IH]; intros d; simpl.
  - reflexivity.
  - unfold update_all in *. simpl. rewrite IH. apply update_PRNG.
Qed.

(** ** Domain: [timeFirst] and [timeLast] *)

Lemma update_time_first (d : Domain G) (ev : Event) :
  _time_first (snd (update d ev)) =
    if EventType_eqb (event ev) EV_RECV_DATA
    then (if _time_first d =? 0 then time ev else _time_first d)
    else _time_first d.
Proof.
  destruct (EventType_eqb (event ev) EV_RECV_DATA) eqn:Hk.
  - apply EventType_eqb_eq in Hk. rewrite (update_recv d ev Hk). reflexivity.
  - apply EventType_eqb_neq in Hk. rewrite (update_not_recv d ev Hk). reflexivity.
Qed.

Lemma update_time_last (d : Domain G) (ev : Event) :
  _time_last (snd (update d ev)) =
    if EventType_eqb (event ev) EV_RECV_DATA then time ev else _time_last d.
Proof.
  destruct (EventType_eqb (event ev) EV_RECV_DATA) eqn:Hk.
  - apply EventType_eqb_eq in Hk. rewrite (update_recv d ev Hk). reflexivity.
  - apply EventType_eqb_neq in Hk. rewrite (update_not_recv d ev Hk). reflexivity.
Qed.

(** Once [timeFirst] is not zero, no update changes it. *)
Lemma time_first_kept (d : Domain G) (ev : Event) :
  _time_first d <> 0 -> _time_first (snd (update d ev)) = _time_first d.
Proof.
  intros Hnz. rewrite update_time_first.
  destruct (EventType_eqb (event ev) EV_RECV_DATA); [|reflexivity].
  destruct (Z.eqb_spec (_time_first d) 0); [contradiction|reflexivity].
Qed.

Lemma time_first_kept_all (evs : list Event) (d : Domain G) :
  _time_first d <> 0 -> _time_first (update_all d evs) = _time_first d.
Proof.
  revert d. induction evs as [|ev evs IH]; intros d Hnz.
  - reflexivity.
  - unfold update_all in *. simpl.
    rewrite IH; rewrite (time_first_kept d ev Hnz); auto.
Qed.

(** C6, amended. On an [EV_RECV_DATA] event, [timeLast] becomes the
    timestamp of the event, and [timeFirst] becomes that timestamp when it
    was 0 (unset) and is kept otherwise; once [timeFirst] is not 0, no
    later sequence of updates changes it. *)
Theorem time_first_set_while_zero (d : Domain G) (ev : Event) (later : list Event) :
  event ev = EV_RECV_DATA ->
  _time_last (snd (update d ev)) = time ev /\
  _time_first (snd (update d ev)) =
    (if _time_first d =? 0 then time ev else _time_first d) /\
  (_time_first (snd (update d ev)) <> 0 ->
   _time_first (update_all (snd (update d ev)) later) =
     _time_first (snd (update d ev))).
Proof.
  intros Hk. apply EventType_eqb_eq in Hk.
  split; [|split].
  - rewrite update_time_last, Hk. reflexivity.
  - rewrite update_time_first, Hk. reflexivity.
  - intros Hnz. apply time_first_kept_all. exact Hnz.
Qed.

(** One update keeps [timeFirst <= timeLast] exactly when the event is not
    an answer, or [timeFirst] is unset, or the timestamp is not before
    [timeFirst]. *)
Lemma time_order_step (d : Domain G) (ev : Event) :
  _time_first d <= _time_last d ->
  (_time_first (snd (update d ev)) <= _time_last (snd (update d ev)) <->
   (event ev <> EV_RECV_DATA \/ _time_first d = 0 \/ _time_first d <= time ev)).
Proof.
  intros Hinv. rewrite update_time_first, update_time_last.
  destruct (EventType_eqb (event ev) EV_RECV_DATA) eqn:Hk.
  - apply EventType_eqb_eq in Hk.
    destruct (Z.eqb_spec (_time_first d) 0) as [Hz|Hnz].
    + split; [intros _; right; left; exact Hz | intros _; lia].
    + split.
      * intros Hle. right; right; exact Hle.
      * intros [Hc|[Hc|Hc]]; [contradiction|contradiction|exact Hc].
  - apply EventType_eqb_neq in Hk. split; [intros _; left; exact Hk | intros _; exact Hinv].
Qed.

(** C7, amended. From a domain with [timeFirst <= timeLast] (a fresh one
    has both at 0), the invariant holds after each update of a sequence
    if and only if every [EV_RECV_DATA] event of the sequence is stamped
    not before the [timeFirst] in force when it is folded, or is folded
    while [timeFirst] is still 0. The order among the later stamps does
    not matter, and an answer stamped before a [timeFirst] that is not 0
    breaks the invariant. *)
Theorem time_first_le_time_last (evs : list Event) (d : Domain G) :
  _time_first d <= _time_last d ->
  (Forall (fun d' => _time_first d' <= _time_last d') (update_trace d evs) <->
   stamps_from (_time_first d) evs).
Proof.
  revert d. induction evs as [|ev evs IH]; intros d Hinv.
  - simpl. split; [intros _; exact I|intros _; constructor].
  - cbn [update_trace stamps_from].
    pose proof (time_order_step d ev Hinv) as Hstep.
    pose proof (update_time_first d ev) as Hf.
    destruct (EventType_eqb (event ev) EV_RECV_DATA) eqn:Hk.
    + apply EventType_eqb_eq in Hk. split.
      * intros Hall. inversion Hall as [|d1 tr H1 Hrest]; subst.
        split.
        -- apply Hstep in H1. destruct H1 as [Hc|Hc]; [contradiction|exact Hc].
        -- rewrite <- Hf. apply IH; assumption.
      * intros [Hc Hrest].
        assert (H1 : _time_first (snd (update d ev)) <= _time_last (snd (update d ev)))
          by (apply Hstep; right; exact Hc).
        constructor; [exact H1|].
        apply IH; [exact H1|]. rewrite Hf. exact Hrest.
    + apply EventType_eqb_neq in Hk.
      assert (H1 : _time_first (snd (update d ev)) <= _time_last (snd (update d ev)))
        by (apply Hstep; left; exact Hk).
      split.
      * intros Hall. inversion Hall as [|d1 tr _ Hrest]; subst.
        rewrite <- Hf. apply IH; assumption.
      * intros Hrest. constructor; [exact H1|].
        apply IH; [exact H1|]. rewrite Hf. exact Hrest.
Qed.

End DomainProperties.

(** ** Domain: the generator of targets *)

Lemma lxor_byte (a b : Z) :
  0 <= a < 256 -> 0 <= b < 256 -> 0 <= Z.lxor a b < 256.
Proof.
  intros Ha Hb.
  assert (Hn : 0 <= Z.lxor a b) by (apply Z.lxor_nonneg; lia).
  split; [exact Hn|].
  assert (Hlog : forall x, 0 <= x < 256 -> Z.log2 x < 8).
  { intros x Hx. destruct (Z.eq_dec x 0) as [->|Hx0]; [simpl; lia|].
    apply Z.log2_lt_pow2; [lia|]. change (2 ^ 8) with 256. lia. }
  destruct (Z.eq_dec (Z.lxor a b) 0) as [E|E]; [lia|].
  change 256 with (2 ^ 8). apply Z.log2_lt_pow2; [lia|].
  pose proof (Z.log2_lxor a b ltac:(lia) ltac:(lia)) as Hl.
  pose proof (Hlog a Ha). pose proof (Hlog b Hb). lia.
Qed.

Lemma ascii_byte (c : ascii) : 0 <= Z.of_N (N_of_ascii c) < 256.
Proof.
  split; [lia|].
  pose proof (N_ascii_bounded c) as Hb. lia.
Qed.

Section GeneratorProperties.

Context {G : Type} {RE : RandomEngine G}.

Lemma name_hash_fold (name : string) (hash : Z) :
  0 <= hash < 256 ->
  name_hash name hash = fold_left Z.lxor (c_str name) hash /\
  0 <= name_hash name hash < 256.
Proof.
  revert hash. induction name as [|c name IH]; intros hash Hh; simpl.
  - split; [reflexivity|exact Hh].
  - destruct (Z.of_N (N_of_ascii c) =? 0) eqn:Hz; simpl.
    + split; [reflexivity|exact Hh].
    + pose proof (lxor_byte hash _ Hh (ascii_byte c)) as Hx.
      rewrite Z.mod_small by lia.
      apply IH. exact Hx.
Qed.

(** The targets depend on the domain through its generator only. *)
Lemma getRandomTarget_PRNG (d1 d2 : Domain G) :
  _PRNG d1 = _PRNG d2 ->
  fst (getRandomTarget d1) = fst (getRandomTarget d2) /\
  _PRNG (snd (getRandomTarget d1)) = _PRNG (snd (getRandomTarget d2)).
Proof.
  intros Hg. unfold getRandomTarget. rewrite Hg.
  destruct (uniform_int 4 10 (_PRNG d2)) as [target_len g].
  destruct (random_chars (Z.to_nat target_len) g EmptyString) as [str g'].
  simpl. split; reflexivity.
Qed.

Lemma random_targets_PRNG (n : nat) (d1 d2 : Domain G) :
  _PRNG d1 = _PRNG d2 ->
  fst (random_targets n d1) = fst (random_targets n d2).
Proof.
  revert d1 d2. induction n as [|n IH]; intros d1 d2 Hg; simpl.
  - reflexivity.
  - destruct (getRandomTarget_PRNG d1 d2 Hg) as [Hs Hg'].
    destruct (getRandomTarget d1) as [s1 e1].
    destruct (getRandomTarget d2) as [s2 e2].
    simpl in Hs, Hg'. specialize (IH e1 e2 Hg').
    destruct (random_targets n e1) as [l1 f1].
    destruct (random_targets n e2) as [l2 f2].
    simpl in *. congruence.
Qed.

(** C9. Two domains constructed from the same name, whatever the other
    arguments of the constructor and whatever events are folded into each
    afterwards, give the same [n] successive targets: the generator is
    seeded by the constructor, with the hash of the name, and [update]
    does not touch it. The hash is the exclusive or of the bytes of the
    name (up to the first zero byte) and fits in 8 bits. *)
Theorem same_name_same_targets (name : string)
    (rank1 rank2 : Z) (avg1 avg2 stddev1 stddev2 : double)
    (count1 count2 first1 first2 last1 last2 : double)
    (lg1 lg2 : Log.t) (evs1 evs2 : list Event) (n : nat) :
  let d1 := fst (Domain_named name rank1 avg1 stddev1 count1 first1 last1 lg1) in
  let d2 := fst (Domain_named name rank2 avg2 stddev2 count2 first2 last2 lg2) in
  fst (random_targets n (update_all d1 evs1)) =
    fst (random_targets n (update_all d2 evs2)) /\
  _PRNG d1 = engine_seed (xor_fold (c_str name)) /\
  0 <= xor_fold (c_str name) < 256.
Proof.
  intros d1 d2.
  destruct (name_hash_fold name 0 ltac:(lia)) as [Hfold Hrange].
  split; [|split].
  - apply random_targets_PRNG. rewrite !update_all_PRNG. reflexivity.
  - unfold d1, Domain_named. simpl. rewrite Hfold. reflexivity.
  - unfold xor_fold. rewrite <- Hfold. exact Hrange.
Qed.

End GeneratorProperties.

(** For a name without a zero byte, [c_str] is every byte of the name. *)
Lemma c_str_all_bytes (name : string) :
  Forall (fun c => Z.of_N (N_of_ascii c) <> 0) (list_ascii_of_string name) ->
  c_str name = map (fun c => Z.of_N (N_of_ascii c)) (list_ascii_of_string name).
Proof.
  induction name as [|c name IH]; simpl; intros Hall.
  - reflexivity.
  - inversion Hall as [|c' l Hc Hrest]; subst.
    destruct (Z.eqb_spec (Z.of_N (N_of_ascii c)) 0) as [E|_]; [contradiction|].
    rewrite IH by exact Hrest. reflexivity.
Qed.

(** ** Domain: the statistics on three equal durations *)

(** C1, at a failing input. Three answers of one tenth of a millisecond
    each are folded into [Domain("example.com")]. After the third update
    the difference under the square root is negative (about -1.7e-18),
    there is no clamp in the code, and [queryTimeStdDev] is not a number;
    it stays so after every later update. The population standard
    deviation of three equal durations is 0, which is also what the
    clamped formula of the specification gives from the same state. *)
Theorem stddev_nan_on_equal_durations :
  let evs := [answer_at 1 one_tenth; answer_at 2 one_tenth;
              answer_at 3 one_tenth; answer_at 4 one_tenth] in
  let trace := update_trace example_domain evs in
  map _query_count trace = [1; 2; 3; 4] /\
  map _query_time_stddev trace = [0; 0; nan; nan]%float /\
  (forall d2, nth_error trace 1 = Some d2 ->
     snd (spec_update_stats (_query_time_avg d2) (_query_time_stddev d2)
            (_query_count d2) one_tenth) = 0%float).
Proof.
  split; [|split].
  - vm_compute. reflexivity.
  - vm_compute. reflexivity.
  - intros d2 Hd2. vm_compute in Hd2. injection Hd2 as <-.
    vm_compute. reflexivity.
Qed.

(** ** The model on the scenarios of the specification *)

(** The durations 10, 20, 30 folded into a fresh domain: the averages are
    10, 15, 20 and the standard deviations 0, 5 and about 8.165. *)
Lemma three_durations_example :
  let trace :=
    update_trace example_domain
      [answer_at 1 10%float; answer_at 2 20%float; answer_at 3 30%float] in
  map _query_time_avg trace = [10; 15; 20]%float /\
  firstn 2 (map _query_time_stddev trace) = [0; 5]%float /\
  (forall d3, nth_error trace 2 = Some d3 ->
     (8164 / 1000 <? _query_time_stddev d3)%float = true /\
     (_query_time_stddev d3 <? 8165 / 1000)%float = true).
Proof.
  split; [vm_compute; reflexivity|]. split; [vm_compute; reflexivity|].
  intros d3 Hd3. vm_compute in Hd3. injection Hd3 as <-.
  split; vm_compute; reflexivity.
Qed.

(** The seed of [Domain("example.com")] and its first three targets with
    the sample engine. *)
Lemma example_targets :
  name_hash "example.com" 0 = 39 /\
  fst (random_targets 3 example_domain) = ["qehk"; "rqhdw5"; "xhn5d8k"]%string.
Proof. vm_compute. split; reflexivity. Qed.

(** The conversion of the constructor truncates toward zero. *)
Lemma size_t_of_double_examples :
  map size_t_of_double [0; 15 / 4; 1700000000]%float = [0; 3; 1700000000].
Proof. vm_compute. reflexivity. Qed.

(** ** Domain: witnesses and counterexamples *)

Lemma update_other_event_frame_witness :
  event (timeout_at 1700000000) <> EV_RECV_DATA /\
  fst (update example_domain (timeout_at 1700000000)) = false /\
  _events (snd (update example_domain (timeout_at 1700000000))) =
    [timeout_at 1700000000] /\
  _query_count (snd (update example_domain (timeout_at 1700000000))) = 0.
Proof.
  assert (Hk : event (timeout_at 1700000000) <> EV_RECV_DATA)
    by (simpl; discriminate).
  pose proof (update_other_event_frame example_domain (timeout_at 1700000000) Hk)
    as (Hret & Hq & _ & _ & Hc & _).
  split; [exact Hk|]. split; [exact Hret|]. split; [exact Hq|exact Hc].
Defined.

(** C6, as stated, fails. A fresh domain receives an answer stamped 0 and
    then an answer stamped 7: [timeFirst] is 0 after the first one and is
    changed to 7 by the later update. *)
Lemma time_first_changed_by_later_update :
  let d1 := snd (update example_domain (answer_at 0 10%float)) in
  let d2 := snd (update d1 (answer_at 7 20%float)) in
  _query_count d1 = 1 /\ _time_first d1 = 0 /\
  _time_first d2 = 7 /\ _time_first d2 <> _time_first d1.
Proof.
  intros d1 d2.
  split; [reflexivity|]. split; [reflexivity|]. split; [reflexivity|].
  change (_time_first d2) with 7. change (_time_first d1) with 0. lia.
Qed.

Lemma time_first_set_while_zero_witness :
  let d := example_domain in
  let ev := answer_at 1700000000 10%float in
  let later := [answer_at 1700000003 20%float; timeout_at 1700000004] in
  event ev = EV_RECV_DATA /\
  _time_last (snd (update d ev)) = 1700000000 /\
  _time_first (snd (update d ev)) = 1700000000 /\
  _time_first (update_all (snd (update d ev)) later) = 1700000000.
Proof.
  intros d ev later.
  assert (Hk : event ev = EV_RECV_DATA) by reflexivity.
  destruct (time_first_set_while_zero d ev later Hk) as (Hl & Hf & Hkeep).
  split; [exact Hk|]. split; [exact Hl|]. split; [exact Hf|].
  rewrite Hkeep; [exact Hf|].
  rewrite Hf. vm_compute. discriminate.
Defined.

(** C7, as stated, fails. A fresh domain receives an answer stamped 10 and
    then an answer stamped 5: the count is 2, [timeFirst] is 10 and
    [timeLast] is 5. *)
Lemma time_first_after_time_last :
  let d2 := update_all example_domain [answer_at 10 10%float; answer_at 5 20%float] in
  _query_count d2 = 2 /\ _time_first d2 = 10 /\ _time_last d2 = 5 /\
  ~ _time_first d2 <= _time_last d2.
Proof.
  intros d2.
  split; [reflexivity|]. split; [reflexivity|]. split; [reflexivity|].
  change (_time_first d2) with 10. change (_time_last d2) with 5. lia.
Qed.

Lemma time_first_le_time_last_witness :
  let evs := [answer_at 10 10%float; timeout_at 11; answer_at 20 20%float;
              answer_at 15 30%float] in
  _time_first example_domain <= _time_last example_domain /\
  stamps_from (_time_first example_domain) evs /\
  Forall (fun d' => _time_first d' <= _time_last d')
    (update_trace example_domain evs).
Proof.
  intros evs.
  assert (H0 : _time_first example_domain <= _time_last example_domain)
    by (vm_compute; discriminate).
  assert (H1 : stamps_from (_time_first example_domain) evs).
  { change (_time_first example_domain) with 0. cbn.
    split; [left; reflexivity|]. split; [right; lia|]. split; [right; lia|exact I]. }
  split; [exact H0|]. split; [exact H1|].
  exact (proj2 (time_first_le_time_last evs example_domain H0) H1).
Defined.

(** ** Database: saving the domains *)

Section DatabaseProperties.

Context {G : Type} {RE : RandomEngine G}.
Context {C : Type} {CN : Connection C}.

Lemma drain_events_all (q : Events) (rank : Z) (rows : list (Event * Z)) :
  drain_events q rank rows = ([], rows ++ map (fun ev => (ev, rank)) q).
Proof.
  revert rows. induction q as [|ev q IH]; intros rows; simpl.
  - rewrite app_nil_r. reflexivity.
  - rewrite IH, <- app_assoc. reflexivity.
Qed.

Lemma collect_measurements_all (domains : list (Domain G)) (rows : list (Event * Z)) :
  collect_measurements domains rows =
    (map (with_events []) domains, rows ++ pending_rows domains).
Proof.
  revert rows. induction domains as [|d domains IH]; intros rows; simpl.
  - rewrite app_nil_r. reflexivity.
  - rewrite drain_events_all, IH, <- app_assoc. reflexivity.
Qed.

Lemma write_LOG_LEVEL (msg : Log.Message) (sev : Log.Severity) (lg : Log.t) :
  Log.LOG_LEVEL (Log.write msg sev lg) = Log.LOG_LEVEL lg.
Proof.
  unfold Log.write. destruct (Log.LOG_LEVEL lg >? Log.rank_of sev); reflexivity.
Qed.

Lemma write_keeps_lines (msg : Log.Message) (sev : Log.Severity) (lg : Log.t)
    (e : Log.Entry) :
  In e (Log.lines lg) -> In e (Log.lines (Log.write msg sev lg)).
Proof.
  intros Hin. unfold Log.write.
  destruct (Log.LOG_LEVEL lg >? Log.rank_of sev); simpl; [exact Hin|].
  apply in_or_app. left. exact Hin.
Qed.

Lemma write_adds_line (msg : Log.Message) (sev : Log.Severity) (lg : Log.t) :
  Log.LOG_LEVEL lg <= Log.rank_of sev ->
  In (Log.mkEntry sev msg) (Log.lines (Log.write msg sev lg)).
Proof.
  intros Hlvl. unfold Log.write.
  destruct (Z.gtb_spec (Log.LOG_LEVEL lg) (Log.rank_of sev)); [lia|].
  simpl. apply in_or_app. right. left. reflexivity.
Qed.

Lemma update_domain_LOG_LEVEL (domains : list (Domain G)) (st : C * Log.t) :
  Log.LOG_LEVEL (snd (fold_left update_domain domains st)) = Log.LOG_LEVEL (snd st).
Proof.
  revert st. induction domains as [|d domains IH]; intros st; simpl.
  - reflexivity.
  - rewrite IH. destruct st as [c lg]. unfold update_domain.
    destruct (execute _ c) as [r c']. simpl.
    destruct r; simpl; rewrite ?write_LOG_LEVEL; reflexivity.
Qed.

(** What [saveDomains] does with a collection that is not empty: it sends
    the updates, then the one [INSERT] with every pending event, and
    returns [true] with all the queues empty, whatever the connection
    answers. *)
Lemma MySQL_saveDomains_nonempty (domains : list (Domain G)) (c : C) (lg : Log.t) :
  domains <> [] ->
  MySQL_saveDomains domains c lg =
    (let st := fold_left update_domain domains (c, lg) in
     let sql := Insert_measurements (pending_rows domains) in
     (true, map (with_events []) domains, snd (execute sql (fst st)),
      Log.write (Log.Inserting_measurements sql) Log.LOG_DEBUG
        (report_failure (fst (execute sql (fst st))) (snd st)))).
Proof.
  intros Hne. unfold MySQL_saveDomains.
  destruct domains as [|d domains]; [contradiction|].
  change (Z.of_nat (List.length (d :: domains)) =? 0) with false.
  cbv iota.
  destruct (fold_left update_domain (d :: domains) (c, lg)) as [c1 lg1].
  rewrite collect_measurements_all. cbn [app fst snd].
  destruct (execute _ c1) as [r c2]. reflexivity.
Qed.

(** C10. With an empty collection, [saveDomains] returns [false] and
    gives back the collection, the connection and the log as they were:
    no statement is executed. *)
Theorem saveDomains_empty_collection (c : C) (lg : Log.t) :
  MySQL_saveDomains (G := G) [] c lg = (false, [], c, lg).
Proof.
  reflexivity.
Qed.

(** When the collection is not empty, [saveDomains] returns [true] and
    leaves every queue of pending events empty, whether the statements
    succeed or fail; a failure of the [INSERT] statement is only logged. *)
Lemma MySQL_saveDomains_drains (domains : list (Domain G)) (c : C) (lg : Log.t) :
  domains <> [] ->
  let st := fold_left update_domain domains (c, lg) in
  let sql := Insert_measurements (pending_rows domains) in
  fst (fst (fst (MySQL_saveDomains domains c lg))) = true /\
  snd (fst (fst (MySQL_saveDomains domains c lg))) = map (with_events []) domains /\
  snd (fst (MySQL_saveDomains domains c lg)) = snd (execute sql (fst st)) /\
  (forall error, fst (execute sql (fst st)) = Failed error ->
     Log.LOG_LEVEL lg <= Log.rank_of Log.LOG_ERROR ->
     In (Log.mkEntry Log.LOG_ERROR (Log.Sql_failed error))
        (Log.lines (snd (MySQL_saveDomains domains c lg)))).
Proof.
  intros Hne st sql.
  rewrite (MySQL_saveDomains_nonempty domains c lg Hne).
  cbn [fst snd]. fold st. fold sql.
  split; [reflexivity|]. split; [reflexivity|]. split; [reflexivity|].
  intros error Hfail Hlvl. rewrite Hfail. simpl.
  apply write_keeps_lines. apply write_adds_line.
  unfold st. rewrite update_domain_LOG_LEVEL. exact Hlvl.
Qed.

End DatabaseProperties.

(** ** Probing *)

Section ProbingProperties.

Context {G : Type} {RE : RandomEngine G}.
Context {W : Type}.

(** C3. Whatever [sendQuery] returns, [probe] folds the reply into the
    bound domain with [update], so the reply is the last pending event,
    also when the flag is [false]; in that case the only other effect of
    [probe] is the error message. [probe] returns the flag of [sendQuery]. *)
Theorem probe_folds_every_reply {Q : Type} {RQ : RemoteQuery (G := G) (W := W) Q}
    (q : Q) (d : Domain G) (w : W) (lg : Log.t) :
  let '(reply, ok, d1, w1, lg1) := sendQuery q d w lg in
  let '(ret, d2, w2, lg2) := probe q d w lg in
  ret = ok /\
  d2 = snd (update d1 (event_of_reply reply)) /\
  _events d2 = _events d1 ++ [event_of_reply reply] /\
  w2 = w1 /\
  lg2 = (if ok then lg1
         else Log.write (Log.Cannot_send_query (getName d1)) Log.LOG_ERROR lg1).
Proof.
  unfold probe.
  destruct (sendQuery q d w lg) as [[[[reply ok] d1] w1] lg1].
  cbn [fst snd].
  pose proof (update_enqueues d1 (event_of_reply reply)) as Hq.
  unfold event_of_reply in *.
  destruct (update d1 _) as [b d2]. cbn [snd] in Hq.
  split; [reflexivity|]. split; [reflexivity|]. split; [exact Hq|].
  split; [reflexivity|]. destruct ok; reflexivity.
Qed.

Context {RS : Resolver W}.

(** C5, amended. The reply of [DNSQuery::sendQuery] is never of kind
    [EV_TIMEOUT] or [EV_ERROR]. When no response packet is received
    (none, or one without the QR flag) the kind stays [EV_SEND_REQUEST];
    when a response packet is received the kind is [EV_RECV_DATA], also
    with a status that is not OK. *)
Theorem dns_reply_without_ok_answer (q : DNSQuery) (d : Domain G) (w : W) (lg : Log.t) :
  let '(label, d1) := getRandomTarget d in
  let '(now, w1) := time_0 w in
  let '(start_time, w2) := clock_gettime w1 in
  let '(packet, query_status, w3) := ldns_resolver_query_status (getName d1) w2 in
  let reply := fst (fst (fst (fst (DNS_sendQuery q d w lg)))) in
  Reply.event reply <> EV_TIMEOUT /\ Reply.event reply <> EV_ERROR /\
  (answered packet = false -> Reply.event reply = EV_SEND_REQUEST) /\
  (answered packet = true -> query_status <> LDNS_STATUS_OK ->
     Reply.event reply = EV_RECV_DATA).
Proof.
  unfold DNS_sendQuery.
  destruct (getRandomTarget d) as [label d1].
  destruct (time_0 w) as [now w1].
  destruct (clock_gettime w1) as [start_time w2].
  destruct (ldns_resolver_query_status (getName d1) w2) as [[packet query_status] w3].
  destruct (clock_gettime w3) as [end_time w4].
  destruct packet as [pkt|]; cbn [answered].
  - destruct (ldns_pkt_qr pkt) eqn:Hqr.
    + destruct (Z.eqb_spec query_status LDNS_STATUS_OK) as [Hok|Hnok]; cbn.
      * split; [discriminate|]. split; [discriminate|].
        split; [discriminate|]. intros _ _. reflexivity.
      * split; [discriminate|]. split; [discriminate|].
        split; [discriminate|]. intros _ _. reflexivity.
    + cbn. split; [discriminate|]. split; [discriminate|].
      split; [|discriminate]. intros _. reflexivity.
  - cbn. split; [discriminate|]. split; [discriminate|].
    split; [|discriminate]. intros _. reflexivity.
Qed.

End ProbingProperties.

(** ** Vantage point: saving and the timer *)

Section VantageProperties.

Context {G : Type} {RE : RandomEngine G}.
Context {W : Type} {Q : Type} {RQ : RemoteQuery (G := G) (W := W) Q}.

Section AnyStorage.

Context {A : Type} {DB : DBAccess (G := G) A}.

Local Abbreviation Proc := (Process (G := G) (W := W) (Q := Q) (A := A)).

Lemma Vantage_save_frame (p : Proc) :
  alarm_counter (Vantage_save p) = alarm_counter p /\
  _dbupdate_freq (instance (Vantage_save p)) = _dbupdate_freq (instance p) /\
  calls (Vantage_save p) = calls p ++ [Call_save].
Proof.
  unfold Vantage_save.
  destruct (saveDomains _ _ _) as [[[ret domains] db] lg].
  repeat split.
Qed.

Lemma Vantage_probe_frame (p : Proc) :
  alarm_counter (Vantage_probe p) = alarm_counter p /\
  _dbupdate_freq (instance (Vantage_probe p)) = _dbupdate_freq (instance p) /\
  calls (Vantage_probe p) = calls p ++ [Call_probe].
Proof.
  unfold Vantage_probe.
  destruct (fold_left probe_one _ _) as [[domains w] lg].
  repeat split.
Qed.

(** One firing of the timer: the counter is incremented; when it has
    reached the frequency there is one save and the counter is reset;
    then there is one probe cycle. *)
Lemma sigHandler_SIGALRM (p : Proc) :
  let c := wrap64 (alarm_counter p + 1) in
  let due := counter_reached c (_dbupdate_freq (instance p)) in
  alarm_counter (sigHandler SIGALRM p) = (if due then 0 else c) /\
  _dbupdate_freq (instance (sigHandler SIGALRM p)) = _dbupdate_freq (instance p) /\
  calls (sigHandler SIGALRM p) =
    calls p ++ (if due then [Call_save; Call_probe] else [Call_probe]).
Proof.
  intros c due. unfold sigHandler.
  cbn [with_alarm_counter with_log alarm_counter instance calls].
  fold c. fold due.
  destruct due.
  - set (p1 := Vantage_save (with_alarm_counter c p)).
    destruct (Vantage_save_frame (with_alarm_counter c p)) as (_ & Hf & Hc).
    fold p1 in Hf, Hc.
    destruct (Vantage_probe_frame (with_alarm_counter 0 p1)) as (Ha' & Hf' & Hc').
    rewrite Ha', Hf', Hc'. cbn [with_alarm_counter alarm_counter instance calls].
    rewrite Hf, Hc. cbn [with_alarm_counter instance calls].
    rewrite <- app_assoc. repeat split.
  - destruct (Vantage_probe_frame (with_alarm_counter c p)) as (Ha' & Hf' & Hc').
    rewrite Ha', Hf', Hc'. repeat split.
Qed.



End AnyStorage.

End VantageProperties.

(** ** Concrete runs *)

(** C2, as stated, fails. The domain has two pending events and every
    statement fails: after the flush the failure is in the log and the
    queue of the domain is empty, so nothing is left to retry. *)
Lemma pending_events_lost_when_save_fails :
  let p := example_process [busy_domain] failing_db [] in
  let p' := Vantage_save p in
  map _events (_domains (instance p)) = [[timeout_at 1; answer_at 2 10%float]] /\
  answer (_dbaccess (instance p')) = Failed "server has gone away" /\
  List.length (received (_dbaccess (instance p'))) = 2%nat /\
  In (Log.mkEntry Log.LOG_ERROR (Log.Sql_failed "server has gone away"))
     (Log.lines (log p')) /\
  map _events (_domains (instance p')) = [[]].
Proof.
  intros p p'.
  split; [reflexivity|]. split; [reflexivity|]. split; [reflexivity|].
  split; [|reflexivity].
  vm_compute. right. left. reflexivity.
Qed.

(** C5, as stated, fails. A response packet arrives with a status that is
    not OK: the reply is of kind [EV_RECV_DATA], not [EV_SEND_REQUEST]. *)
Lemma refused_answer_is_recv_data :
  let w := example_world [refused_answer] in
  let reply := fst (fst (fst (fst (DNS_sendQuery example_query example_domain w log_0)))) in
  Reply.event reply = EV_RECV_DATA /\
  Reply.event reply <> EV_SEND_REQUEST.
Proof.
  intros w reply.
  change (Reply.event reply) with EV_RECV_DATA.
  split; [reflexivity|discriminate].
Qed.

Lemma dns_reply_without_ok_answer_witness :
  let reply_of w :=
    fst (fst (fst (fst (DNS_sendQuery example_query example_domain w log_0)))) in
  Reply.event (reply_of (example_world [refused_answer])) = EV_RECV_DATA /\
  Reply.event (reply_of (example_world [(None, 1)])) = EV_SEND_REQUEST.
Proof.
  intros reply_of. split.
  - pose proof (dns_reply_without_ok_answer example_query example_domain
                  (example_world [refused_answer]) log_0) as H.
    vm_compute in H. destruct H as (_ & _ & _ & H).
    specialize (H eq_refl ltac:(discriminate)).
    vm_compute. exact H.
  - pose proof (dns_reply_without_ok_answer example_query example_domain
                  (example_world [(None, 1)]) log_0) as H.
    vm_compute in H. destruct H as (_ & _ & H & _).
    specialize (H eq_refl).
    vm_compute. exact H.
Defined.

(** The duration computed for a query that took 5 ms on the clock: the
    nanoseconds are divided by 1e3, not by 1e6. *)
Lemma measured_duration_of_5_ms :
  measured_duration (mkTimespec 1700000000 0) (mkTimespec 1700000000 5000000)
  = 5000%float.
Proof. vm_compute. reflexivity. Qed.

(** [probe] on a variant that fails: the flag is [false], the failure is
    logged and the error reply is queued in the domain all the same. *)
Lemma probe_unreachable_example :
  let '(ret, d, w, lg) :=
    probe (mkUnreachable 1700000000) example_domain (example_world []) log_0 in
  ret = false /\
  _events d = [mkEvent 1700000000 "example.com" EV_ERROR 0%float] /\
  _query_count d = 0 /\
  Log.lines lg =
    [Log.mkEntry Log.LOG_ERROR (Log.Cannot_send_query "example.com")].
Proof. vm_compute. repeat split. Qed.

(** The frequency 4 compares with the counters 0 to 4 as the integer does. *)
Lemma frequency_4 (c : Z) :
  0 <= c <= 4 -> counter_reached c 4%float = (4 <=? c).
Proof.
  intros Hc.
  assert (E : c = 0 \/ c = 1 \/ c = 2 \/ c = 3 \/ c = 4) by lia.
  destruct E as [->|[->|[->|[->| ->]]]]; vm_compute; reflexivity.
Qed.

(** The scenario of the specification with [flushEveryNProbes = 4],
    evaluated: the counter after each of the 8 ticks and
    the number of statements that reached the database (at each save, one
    update for the one domain and one insert). *)
Lemma eight_ticks_evaluated :
  let p := example_process [example_domain] failing_db [] in
  map (fun n => alarm_counter (ticks n p)) [1; 2; 3; 4; 5; 6; 7; 8]%nat
    = [1; 2; 3; 0; 1; 2; 3; 0] /\
  map (fun n => List.length (received (_dbaccess (instance (ticks n p)))))
      [1; 2; 3; 4; 5; 6; 7; 8]%nat
    = [0; 0; 0; 2; 2; 2; 2; 4]%nat.
Proof. vm_compute. split; reflexivity. Qed.

(** * Further properties *)

(** ** Strings *)

Lemma append_assoc (s1 s2 s3 : string) :
  ((s1 ++ s2) ++ s3 = s1 ++ (s2 ++ s3))%string.
Proof. induction s1 as [|c s1 IH]; simpl; [reflexivity|]. rewrite IH. reflexivity. Qed.

Lemma append_nil_r (s : string) : (s ++ "" = s)%string.
Proof. induction s as [|c s IH]; simpl; [reflexivity|]. rewrite IH. reflexivity. Qed.

Lemma length_append (s1 s2 : string) :
  String.length (s1 ++ s2) = (String.length s1 + String.length s2)%nat.
Proof. induction s1 as [|c s1 IH]; simpl; [reflexivity|]. rewrite IH. reflexivity. Qed.

(** ** The targets *)

Section TargetShape.

Context {G : Type} {RE : RandomEngine G}.

(** One character of a target, from a draw between 0 and 35. *)
Lemma label_char_of_draw (r : Z) :
  0 <= r <= 35 ->
  label_char
    (ascii_of_N
       (Z.to_N (if r mod 256 <? 26 then (97 + r mod 256) mod 256
                else (48 + r mod 256 - 26) mod 256))) = true.
Proof.
  intros Hr. rewrite (Z.mod_small r 256) by lia.
  unfold label_char.
  destruct (Z.ltb_spec r 26) as [Hlt|Hge].
  - rewrite (Z.mod_small (97 + r) 256) by lia.
    rewrite N_ascii_embedding by lia. rewrite Z2N.id by lia.
    apply orb_true_iff. left. apply andb_true_iff. split; apply Z.leb_le; lia.
  - rewrite (Z.mod_small (48 + r - 26) 256) by lia.
    rewrite N_ascii_embedding by lia. rewrite Z2N.id by lia.
    apply orb_true_iff. right. apply andb_true_iff. split; apply Z.leb_le; lia.
Qed.

Lemma random_chars_shape (n : nat) (g : G) (str : string) :
  draws_in_range G ->
  exists s : string,
    fst (random_chars n g str) = (str ++ s)%string /\
    String.length s = n /\
    forallb label_char (list_ascii_of_string s) = true.
Proof.
  intros Hdraw. revert g str. induction n as [|n IH]; intros g str.
  - exists EmptyString. simpl. rewrite append_nil_r. repeat split.
  - cbn [random_chars].
    pose proof (Hdraw 0 35 g ltac:(lia)) as Hr.
    destruct (uniform_int 0 35 g) as [r g1]. cbn [fst] in Hr.
    cbv zeta.
    set (a := ascii_of_N _).
    destruct (IH g1 (str ++ String a EmptyString)%string) as (s & Hs & Hlen & Hok).
    exists (String a s). split; [|split].
    + rewrite Hs, append_assoc. reflexivity.
    + simpl. rewrite Hlen. reflexivity.
    + cbn [list_ascii_of_string forallb]. rewrite Hok, andb_true_r.
      unfold a. apply label_char_of_draw. exact Hr.
Qed.

(** X1. When the draws of the engine respect their bounds, a target has
    between 4 and 10 characters, all of them lowercase letters or
    digits; producing it changes nothing of the domain but the
    generator. *)
Theorem random_target_shape (d : Domain G) :
  draws_in_range G ->
  (4 <= String.length (fst (getRandomTarget d)) <= 10)%nat /\
  forallb label_char (list_ascii_of_string (fst (getRandomTarget d))) = true /\
  with_PRNG (_PRNG d) (snd (getRandomTarget d)) = d.
Proof.
  intros Hdraw. unfold getRandomTarget.
  pose proof (Hdraw 4 10 (_PRNG d) ltac:(lia)) as Hlen.
  destruct (uniform_int 4 10 (_PRNG d)) as [target_len g]. cbn [fst] in Hlen.
  destruct (random_chars_shape (Z.to_nat target_len) g EmptyString Hdraw)
    as (s & Hs & Hn & Hok).
  destruct (random_chars (Z.to_nat target_len) g EmptyString) as [str g'].
  cbn [fst snd] in *. subst str. cbn [append].
  split; [rewrite Hn; lia|]. split; [exact Hok|].
  destruct d; reflexivity.
Qed.

End TargetShape.

(** The sample engine respects the bounds of a draw. *)
Lemma minstd_draws_in_range : draws_in_range Z.
Proof.
  intros a b g Hab. cbn [uniform_int minstd_rand0 fst].
  pose proof (Z.mod_pos_bound (minstd_next g) (b - a + 1) ltac:(lia)). lia.
Qed.

Lemma random_target_shape_witness :
  draws_in_range Z /\
  (4 <= String.length (fst (getRandomTarget example_domain)) <= 10)%nat /\
  forallb label_char (list_ascii_of_string (fst (getRandomTarget example_domain))) = true.
Proof.
  split; [exact minstd_draws_in_range|].
  destruct (random_target_shape example_domain minstd_draws_in_range) as (Hl & Hc & _).
  split; [exact Hl|exact Hc].
Defined.

(** ** The queue and the count of a domain over a sequence of updates *)

Section DomainSequences.

Context {G : Type} {RE : RandomEngine G}.

Lemma update_frame (d : Domain G) (ev : Event) :
  _rank (snd (update d ev)) = _rank d /\ _name (snd (update d ev)) = _name d.
Proof.
  destruct (EventType_eqb (event ev) EV_RECV_DATA) eqn:Hk.
  - apply EventType_eqb_eq in Hk. rewrite (update_recv d ev Hk). split; reflexivity.
  - apply EventType_eqb_neq in Hk. rewrite (update_not_recv d ev Hk). split; reflexivity.
Qed.

Lemma update_count (d : Domain G) (ev : Event) :
  _query_count (snd (update d ev)) =
    if is_recv ev then wrap64 (_query_count d + 1) else _query_count d.
Proof.
  unfold is_recv.
  destruct (EventType_eqb (event ev) EV_RECV_DATA) eqn:Hk.
  - apply EventType_eqb_eq in Hk. rewrite (update_recv d ev Hk). reflexivity.
  - apply EventType_eqb_neq in Hk. rewrite (update_not_recv d ev Hk). reflexivity.
Qed.

(** X2. After any sequence of updates the queue is the former queue
    followed by every event of the sequence, answers or not, in the order
    of the updates; the rank, the name and the generator are unchanged. *)
Theorem update_all_queue (evs : list Event) (d : Domain G) :
  _events (update_all d evs) = _events d ++ evs /\
  _rank (update_all d evs) = _rank d /\
  _name (update_all d evs) = _name d /\
  _PRNG (update_all d evs) = _PRNG d.
Proof.
  revert d. induction evs as [|ev evs IH]; intros d.
  - unfold update_all. simpl. rewrite app_nil_r. repeat split.
  - unfold update_all in *. cbn [fold_left].
    destruct (IH (snd (update d ev))) as (Hq & Hr & Hn & Hg).
    destruct (update_frame d ev) as [Hr1 Hn1].
    rewrite Hq, Hr, Hn, Hg, update_enqueues, update_PRNG, Hr1, Hn1, <- app_assoc.
    repeat split.
Qed.

(** X3. The count of a domain after a sequence of updates is the former
    count plus the number of answers in the sequence, modulo 2^64: the
    other kinds of events are queued but not counted. *)
Theorem update_all_counts_answers (evs : list Event) (d : Domain G) :
  0 <= _query_count d < SIZE_MAX_plus_1 ->
  _query_count (update_all d evs) =
    (_query_count d + Z.of_nat (List.length (filter is_recv evs))) mod SIZE_MAX_plus_1.
Proof.
  revert d. induction evs as [|ev evs IH]; intros d Hc.
  - unfold update_all. simpl. rewrite Z.add_0_r, Z.mod_small; [reflexivity|exact Hc].
  - unfold update_all in *. cbn [fold_left filter].
    assert (HM : 0 < SIZE_MAX_plus_1) by (unfold SIZE_MAX_plus_1; lia).
    rewrite IH; rewrite update_count; destruct (is_recv ev).
    + cbn [List.length]. unfold wrap64. rewrite Z.add_mod_idemp_l by lia.
      f_equal. lia.
    + reflexivity.
    + unfold wrap64. apply Z.mod_pos_bound. exact HM.
    + exact Hc.
Qed.

End DomainSequences.

Lemma update_all_counts_answers_witness :
  let evs := [answer_at 10 10%float; timeout_at 11; answer_at 12 20%float] in
  0 <= _query_count example_domain < SIZE_MAX_plus_1 /\
  _query_count (update_all example_domain evs) = 2.
Proof.
  intros evs.
  assert (Hc : 0 <= _query_count example_domain < SIZE_MAX_plus_1)
    by (change (_query_count example_domain) with 0; unfold SIZE_MAX_plus_1; lia).
  split; [exact Hc|].
  exact (update_all_counts_answers evs example_domain Hc).
Defined.

(** ** The logger *)

Lemma write_all_LOG_LEVEL (calls : list (Log.Message * Log.Severity)) (lg : Log.t) :
  Log.LOG_LEVEL (write_all calls lg) = Log.LOG_LEVEL lg.
Proof.
  revert lg. induction calls as [|c calls IH]; intros lg.
  - reflexivity.
  - unfold write_all in *. cbn [fold_left]. rewrite IH. apply write_LOG_LEVEL.
Qed.

(** X4. After any sequence of calls of [Log::write] the log is the former
    log followed by the messages whose severity is at least [LOG_LEVEL],
    in the order of the calls: the others leave no trace, and nothing
    already written is changed. *)
Theorem write_all_filters (calls : list (Log.Message * Log.Severity)) (lg : Log.t) :
  Log.lines (write_all calls lg) =
    Log.lines lg ++
    map (fun c => Log.mkEntry (snd c) (fst c))
      (filter (printed (Log.LOG_LEVEL lg)) calls).
Proof.
  revert lg. induction calls as [|c calls IH]; intros lg.
  - simpl. rewrite app_nil_r. reflexivity.
  - unfold write_all in *. cbn [fold_left filter].
    rewrite IH, write_LOG_LEVEL. unfold Log.write at 1, printed at 2.
    destruct (Z.gtb_spec (Log.LOG_LEVEL lg) (Log.rank_of (snd c))) as [Hgt|Hle].
    + destruct (Z.leb_spec (Log.LOG_LEVEL lg) (Log.rank_of (snd c))); [lia|].
      reflexivity.
    + destruct (Z.leb_spec (Log.LOG_LEVEL lg) (Log.rank_of (snd c))); [|lia].
      cbn [Log.lines map]. rewrite <- app_assoc. reflexivity.
Qed.

(** ** The statements of a save *)

Section SaveStatements.

Context {G : Type} {RE : RandomEngine G}.
Context {C : Type} {CN : Connection C}.

Lemma execute_all_app (l1 l2 : list Statement) (c : C) :
  execute_all (l1 ++ l2) c = execute_all l2 (execute_all l1 c).
Proof. unfold execute_all. apply fold_left_app. Qed.

Lemma update_domain_connection (domains : list (Domain G)) (c : C) (lg : Log.t) :
  fst (fold_left update_domain domains (c, lg)) =
    execute_all (map update_statement domains) c.
Proof.
  revert c lg. induction domains as [|d domains IH]; intros c lg.
  - reflexivity.
  - cbn [fold_left map]. unfold update_domain at 2.
    fold (update_statement d).
    destruct (execute (update_statement d) c) as [r c1] eqn:E.
    rewrite IH. unfold execute_all. cbn [fold_left]. rewrite E. reflexivity.
Qed.

(** X5. A save of a collection that is not empty sends one [UPDATE] per
    domain, in the order of the collection, and then one single [INSERT]
    whose rows are the pending events of all the domains, each domain's
    in the order they were queued and with the rank of that domain. No
    other statement is sent, whether the statements succeed or fail. *)
Theorem saveDomains_statements (domains : list (Domain G)) (c : C) (lg : Log.t) :
  domains <> [] ->
  snd (fst (MySQL_saveDomains domains c lg)) =
    execute_all (sent_statements domains) c.
Proof.
  intros Hne. rewrite (MySQL_saveDomains_nonempty domains c lg Hne).
  cbn [fst snd]. unfold sent_statements.
  rewrite execute_all_app, update_domain_connection. reflexivity.
Qed.

Lemma pending_rows_empty (domains : list (Domain G)) :
  Forall (fun d => _events d = []) domains -> pending_rows domains = [].
Proof.
  induction 1 as [|d domains Hd Hrest IH]; [reflexivity|].
  unfold pending_rows in *. cbn [flat_map]. unfold getEvents at 1.
  rewrite Hd, IH. reflexivity.
Qed.

Lemma with_events_same (d : Domain G) : _events d = [] -> with_events [] d = d.
Proof. destruct d; simpl; intros ->; reflexivity. Qed.

(** X6. When no domain has a pending event (as right after a save), a
    save still sends every [UPDATE] and then an [INSERT] without any row;
    it returns [true] and the domains are unchanged. *)
Theorem saveDomains_nothing_pending (domains : list (Domain G)) (c : C) (lg : Log.t) :
  domains <> [] ->
  Forall (fun d => _events d = []) domains ->
  fst (fst (fst (MySQL_saveDomains domains c lg))) = true /\
  snd (fst (fst (MySQL_saveDomains domains c lg))) = domains /\
  snd (fst (MySQL_saveDomains domains c lg)) =
    execute_all (map update_statement domains ++ [Insert_measurements []]) c.
Proof.
  intros Hne Hall.
  rewrite (MySQL_saveDomains_nonempty domains c lg Hne). cbn [fst snd].
  rewrite (pending_rows_empty domains Hall).
  rewrite execute_all_app, update_domain_connection.
  split; [reflexivity|]. split; [|reflexivity].
  clear Hne. induction Hall as [|d domains Hd Hrest IH]; [reflexivity|].
  cbn [map]. rewrite IH, (with_events_same d Hd). reflexivity.
Qed.

End SaveStatements.

Lemma recorder_received (sqls : list Statement) (c : Recorder) :
  received (execute_all sqls c) = received c ++ sqls /\
  answer (execute_all sqls c) = answer c.
Proof.
  revert c. induction sqls as [|sql sqls IH]; intros c.
  - simpl. rewrite app_nil_r. split; reflexivity.
  - unfold execute_all in *. cbn [fold_left].
    destruct (IH (snd (execute sql c))) as [Hr Ha].
    rewrite Hr, Ha. cbn. rewrite <- app_assoc. split; reflexivity.
Qed.

Lemma saveDomains_statements_witness :
  [busy_domain] <> [] /\
  received (snd (fst (MySQL_saveDomains [busy_domain] failing_db log_0))) =
    [update_statement busy_domain;
     Insert_measurements [(timeout_at 1, 0); (answer_at 2 10%float, 0)]].
Proof.
  assert (Hne : [busy_domain] <> []) by discriminate.
  split; [exact Hne|].
  rewrite (saveDomains_statements [busy_domain] failing_db log_0 Hne).
  destruct (recorder_received (sent_statements [busy_domain]) failing_db) as [Hr _].
  rewrite Hr. reflexivity.
Defined.

Lemma saveDomains_nothing_pending_witness :
  let saved := snd (fst (fst (MySQL_saveDomains [busy_domain] failing_db log_0))) in
  saved <> [] /\
  Forall (fun d => _events d = []) saved /\
  snd (fst (fst (MySQL_saveDomains saved failing_db log_0))) = saved /\
  received (snd (fst (MySQL_saveDomains saved failing_db log_0))) =
    [update_statement busy_domain; Insert_measurements []].
Proof.
  intros saved.
  assert (Hne : saved <> []) by (vm_compute; discriminate).
  assert (Hall : Forall (fun d => _events d = []) saved)
    by (vm_compute; repeat constructor).
  destruct (saveDomains_nothing_pending saved failing_db log_0 Hne Hall)
    as (_ & Hd & Hc).
  split; [exact Hne|]. split; [exact Hall|]. split; [exact Hd|].
  rewrite Hc.
  destruct (recorder_received
              (map update_statement saved ++ [Insert_measurements []]) failing_db)
    as [Hr _].
  rewrite Hr. reflexivity.
Defined.

(** ** The DNS probe *)

Section DNSProbe.

Context {G : Type} {RE : RandomEngine G}.
Context {W : Type} {RS : Resolver W}.

Lemma getRandomTarget_frame (d : Domain G) :
  with_PRNG (_PRNG d) (snd (getRandomTarget d)) = d.
Proof.
  unfold getRandomTarget.
  destruct (uniform_int 4 10 (_PRNG d)) as [target_len g].
  destruct (random_chars (Z.to_nat target_len) g EmptyString) as [str g'].
  destruct d; reflexivity.
Qed.

Lemma with_PRNG_fields (g : G) (d1 d : Domain G) :
  with_PRNG g d1 = d ->
  _rank d1 = _rank d /\ _name d1 = _name d /\
  _query_time_avg d1 = _query_time_avg d /\
  _query_time_stddev d1 = _query_time_stddev d /\
  _query_count d1 = _query_count d /\
  _time_first d1 = _time_first d /\ _time_last d1 = _time_last d /\
  _events d1 = _events d.
Proof. intros <-. destruct d1; simpl. repeat split. Qed.

(** The result of [sendQuery], by cases on what the resolver returned. *)
Lemma DNS_sendQuery_result (q : DNSQuery) (d : Domain G) (w : W) (lg : Log.t) :
  let '(label, d1) := getRandomTarget d in
  let '(now, w1) := time_0 w in
  let '(start_time, w2) := clock_gettime w1 in
  let '(packet, query_status, w3) := ldns_resolver_query_status (getName d1) w2 in
  let '(end_time, w4) := clock_gettime w3 in
  let full := answered packet && (query_status =? LDNS_STATUS_OK) in
  exists lg' : Log.t,
    DNS_sendQuery q d w lg =
      (Reply.mk
         (if full then wrap64 (answer_time packet) else wrap64 now)
         (label ++ "." ++ getName d1)
         (if answered packet then EV_RECV_DATA else EV_SEND_REQUEST)
         (if full then double_of_Z (answer_querytime packet)
          else measured_duration start_time end_time),
       true, d1, w4, lg').
Proof.
  unfold DNS_sendQuery.
  destruct (getRandomTarget d) as [label d1].
  destruct (time_0 w) as [now w1].
  destruct (clock_gettime w1) as [start_time w2].
  destruct (ldns_resolver_query_status (getName d1) w2) as [[packet query_status] w3].
  destruct (clock_gettime w3) as [end_time w4].
  destruct packet as [pkt|]; cbn [answered answer_time answer_querytime andb].
  - destruct (ldns_pkt_qr pkt); cbn [andb].
    + destruct (query_status =? LDNS_STATUS_OK); eexists; reflexivity.
    + eexists; reflexivity.
  - eexists; reflexivity.
Qed.

(** X7. When the resolver returns a response packet with the status OK,
    the reply is an answer stamped with the timestamp of the packet and
    its duration is the query time of the packet, not the time measured
    on the local clock. In every case the target of the reply is the
    next random label of the domain, a dot and the name of the domain. *)
Theorem dns_reply_with_ok_answer (q : DNSQuery) (d : Domain G) (w : W) (lg : Log.t) :
  let '(label, d1) := getRandomTarget d in
  let '(now, w1) := time_0 w in
  let '(start_time, w2) := clock_gettime w1 in
  let '(packet, query_status, w3) := ldns_resolver_query_status (_name d) w2 in
  let reply := fst (fst (fst (fst (DNS_sendQuery q d w lg)))) in
  Reply.target reply = (label ++ "." ++ _name d)%string /\
  (answered packet = true -> query_status = LDNS_STATUS_OK ->
     Reply.event reply = EV_RECV_DATA /\
     Reply.time reply = wrap64 (answer_time packet) /\
     Reply.duration reply = double_of_Z (answer_querytime packet)).
Proof.
  pose proof (DNS_sendQuery_result q d w lg) as H.
  pose proof (getRandomTarget_frame d) as Hf.
  destruct (getRandomTarget d) as [label d1]. cbn [snd] in Hf.
  apply with_PRNG_fields in Hf. destruct Hf as (_ & Hn & _).
  unfold getName in H. rewrite Hn in H.
  destruct (time_0 w) as [now w1].
  destruct (clock_gettime w1) as [start_time w2].
  destruct (ldns_resolver_query_status (_name d) w2) as [[packet query_status] w3].
  destruct (clock_gettime w3) as [end_time w4].
  destruct H as (lg' & ->). cbn [fst Reply.target Reply.event Reply.time Reply.duration].
  split; [reflexivity|].
  intros Ha Hok. rewrite Ha, Hok. cbn. repeat split.
Qed.

(** X8. A probe of the DNS variant always returns [true] and adds no
    message of its own to the log (no "cannot send query"). It appends
    exactly one event to the queue of the domain, an answer when a
    response packet was received and a request otherwise, with the
    random target of the probe; the count grows by one exactly when a
    response packet was received. The rank and the name are unchanged. *)
Theorem dns_probe_effect (q : DNSQuery) (d : Domain G) (w : W) (lg : Log.t) :
  let '(label, d1) := getRandomTarget d in
  let '(now, w1) := time_0 w in
  let '(start_time, w2) := clock_gettime w1 in
  let '(packet, query_status, w3) := ldns_resolver_query_status (_name d) w2 in
  let '(ret, d2, w', lg2) := probe q d w lg in
  ret = true /\
  lg2 = snd (DNS_sendQuery q d w lg) /\
  (exists ev : Event,
     _events d2 = _events d ++ [ev] /\
     target ev = (label ++ "." ++ _name d)%string /\
     event ev = (if answered packet then EV_RECV_DATA else EV_SEND_REQUEST)) /\
  _query_count d2 =
    (if answered packet then wrap64 (_query_count d + 1) else _query_count d) /\
  _rank d2 = _rank d /\ _name d2 = _name d /\ _PRNG d2 = _PRNG d1.
Proof.
  pose proof (DNS_sendQuery_result q d w lg) as H.
  pose proof (getRandomTarget_frame d) as Hf.
  unfold probe. cbn [sendQuery DNSQuery_RemoteQuery].
  destruct (getRandomTarget d) as [label d1]. cbn [snd] in Hf.
  apply with_PRNG_fields in Hf.
  destruct Hf as (Hr & Hn & _ & _ & Hc & _ & _ & He).
  unfold getName in H. rewrite Hn in H.
  destruct (time_0 w) as [now w1].
  destruct (clock_gettime w1) as [start_time w2].
  destruct (ldns_resolver_query_status (_name d) w2) as [[packet query_status] w3].
  destruct (clock_gettime w3) as [end_time w4].
  destruct H as (lg' & ->). cbn [fst snd negb].
  set (ev := mkEvent _ _ _ _).
  pose proof (update_enqueues d1 ev) as Hq.
  pose proof (update_PRNG d1 ev) as Hg.
  assert (Hcount : _query_count (snd (update d1 ev)) =
                   if answered packet then wrap64 (_query_count d1 + 1)
                   else _query_count d1).
  { destruct (answered packet) eqn:Ha.
    - rewrite (update_recv d1 ev); [reflexivity|]. reflexivity.
    - rewrite (update_not_recv d1 ev); [reflexivity|]. unfold ev. cbn. discriminate. }
  assert (Hframe : _rank (snd (update d1 ev)) = _rank d1 /\
                   _name (snd (update d1 ev)) = _name d1).
  { destruct (EventType_eqb (event ev) EV_RECV_DATA) eqn:Hk.
    - apply EventType_eqb_eq in Hk. rewrite (update_recv d1 ev Hk). split; reflexivity.
    - apply EventType_eqb_neq in Hk. rewrite (update_not_recv d1 ev Hk). split; reflexivity. }
  destruct (update d1 ev) as [b d2]. cbn [snd] in *.
  split; [reflexivity|]. split; [reflexivity|].
  split; [exists ev; rewrite Hq, He; repeat split|].
  rewrite Hcount, Hc. destruct Hframe as [-> ->].
  rewrite Hr, Hn. repeat split. exact Hg.
Qed.

End DNSProbe.

Lemma dns_reply_with_ok_answer_witness :
  let w := example_world [ok_answer] in
  let reply := fst (fst (fst (fst (DNS_sendQuery example_query example_domain w log_0)))) in
  Reply.target reply = "qehk.example.com"%string /\
  Reply.event reply = EV_RECV_DATA /\
  Reply.time reply = 1700000001 /\
  Reply.duration reply = 12%float.
Proof.
  intros w reply.
  pose proof (dns_reply_with_ok_answer example_query example_domain w log_0) as H.
  vm_compute in H. destruct H as [Ht H].
  specialize (H eq_refl eq_refl). destruct H as (He & Hs & Hd).
  vm_compute. split; [exact Ht|]. split; [exact He|]. split; [exact Hs|exact Hd].
Defined.

(** ** The probe cycle *)

Lemma assign_nth_length {T : Type} (i : nat) (x : T) (v : list T) :
  List.length (assign_nth i x v) = List.length v.
Proof.
  revert i. induction v as [|y v IH]; intros i; [destruct i; reflexivity|].
  destruct i; simpl; [reflexivity|]. rewrite IH. reflexivity.
Qed.

Lemma assign_nth_same {T : Type} (i : nat) (x y : T) (v : list T) :
  nth_error v i = Some y -> nth_error (assign_nth i x v) i = Some x.
Proof.
  revert i. induction v as [|z v IH]; intros i H.
  - destruct i; discriminate.
  - destruct i; simpl in *; [reflexivity|]. apply IH. exact H.
Qed.

Lemma assign_nth_other {T : Type} (i j : nat) (x : T) (v : list T) :
  i <> j -> nth_error (assign_nth i x v) j = nth_error v j.
Proof.
  revert i j. induction v as [|z v IH]; intros i j Hij.
  - destruct i; reflexivity.
  - destruct i, j; simpl; try reflexivity; [contradiction|].
    apply IH. intros E. apply Hij. f_equal. exact E.
Qed.

Section ProbeCycle.

Context {G : Type} {RE : RandomEngine G}.
Context {W : Type} {RS : Resolver W}.

(** What one DNS probe does to the queue of its domain. *)
Lemma dns_probe_queue (q : DNSQuery) (d : Domain G) (w : W) (lg : Log.t) :
  exists ev : Event,
    _events (snd (fst (fst (probe q d w lg)))) = _events d ++ [ev] /\
    _rank (snd (fst (fst (probe q d w lg)))) = _rank d /\
    _name (snd (fst (fst (probe q d w lg)))) = _name d.
Proof.
  pose proof (DNS_sendQuery_result q d w lg) as H.
  pose proof (getRandomTarget_frame d) as Hf.
  unfold probe. cbn [sendQuery DNSQuery_RemoteQuery].
  destruct (getRandomTarget d) as [label d1]. cbn [snd] in Hf.
  apply with_PRNG_fields in Hf.
  destruct Hf as (Hr & Hn & _ & _ & _ & _ & _ & He).
  destruct (time_0 w) as [now w1].
  destruct (clock_gettime w1) as [start_time w2].
  destruct (ldns_resolver_query_status (getName d1) w2) as [[packet query_status] w3].
  destruct (clock_gettime w3) as [end_time w4].
  destruct H as (lg' & ->). cbn [fst snd negb].
  set (ev := mkEvent _ _ _ _).
  pose proof (update_enqueues d1 ev) as Hq.
  assert (Hframe : _rank (snd (update d1 ev)) = _rank d1 /\
                   _name (snd (update d1 ev)) = _name d1).
  { destruct (EventType_eqb (event ev) EV_RECV_DATA) eqn:Hk.
    - apply EventType_eqb_eq in Hk. rewrite (update_recv d1 ev Hk). split; reflexivity.
    - apply EventType_eqb_neq in Hk. rewrite (update_not_recv d1 ev Hk). split; reflexivity. }
  destruct (update d1 ev) as [b d2]. cbn [fst snd] in *.
  exists ev. destruct Hframe as [-> ->]. rewrite Hq, He, Hr, Hn. repeat split.
Qed.

Lemma probe_one_step (ds : list (Domain G)) (w : W) (lg : Log.t)
    (rq : string * (DNSQuery * nat)) :
  let ds' := fst (fst (probe_one (ds, w, lg) rq)) in
  List.length ds' = List.length ds /\
  forall (j : nat) (d : Domain G),
    nth_error ds j = Some d ->
    exists (d' : Domain G) (added : list Event),
      nth_error ds' j = Some d' /\
      _events d' = _events d ++ added /\
      List.length added = (if Nat.eqb (snd (snd rq)) j then 1 else 0)%nat /\
      _rank d' = _rank d /\ _name d' = _name d.
Proof.
  unfold probe_one. destruct rq as [name [q i]]. cbn [snd].
  destruct (nth_error ds i) as [di|] eqn:Hi.
  - pose proof (dns_probe_queue q di w lg) as (ev & Hq & Hr & Hn).
    destruct (probe q di w lg) as [[[ret di'] w'] lg']. cbn [fst snd] in *.
    split; [apply assign_nth_length|].
    intros j d Hj. destruct (Nat.eqb_spec i j) as [->|Hij].
    + rewrite Hi in Hj. injection Hj as <-.
      exists di', [ev]. rewrite (assign_nth_same j di' di ds Hi).
      repeat split; assumption.
    + exists d, []. rewrite (assign_nth_other i j di' ds Hij), app_nil_r.
      repeat split. exact Hj.
  - cbn [fst]. split; [reflexivity|].
    intros j d Hj. destruct (Nat.eqb_spec i j) as [->|Hij].
    + rewrite Hi in Hj. discriminate.
    + exists d, []. rewrite app_nil_r. repeat split. exact Hj.
Qed.

Lemma probe_cycle_fold (rqs : list (string * (DNSQuery * nat)))
    (ds : list (Domain G)) (w : W) (lg : Log.t) :
  let ds' := fst (fst (fold_left probe_one rqs (ds, w, lg))) in
  List.length ds' = List.length ds /\
  forall (j : nat) (d : Domain G),
    nth_error ds j = Some d ->
    exists (d' : Domain G) (added : list Event),
      nth_error ds' j = Some d' /\
      _events d' = _events d ++ added /\
      List.length added = bound_count j rqs /\
      _rank d' = _rank d /\ _name d' = _name d.
Proof.
  revert ds w lg. induction rqs as [|rq rqs IH]; intros ds w lg.
  - cbn [fold_left fst]. split; [reflexivity|].
    intros j d Hj. exists d, []. rewrite app_nil_r. repeat split. exact Hj.
  - cbn [fold_left].
    destruct (probe_one_step ds w lg rq) as [Hlen1 Hstep].
    destruct (probe_one (ds, w, lg) rq) as [[ds1 w1] lg1]. cbn [fst] in Hlen1, Hstep.
    destruct (IH ds1 w1 lg1) as [Hlen2 Hrest].
    split; [rewrite Hlen2; exact Hlen1|].
    intros j d Hj.
    destruct (Hstep j d Hj) as (d1 & added1 & Hj1 & He1 & Hl1 & Hr1 & Hn1).
    destruct (Hrest j d1 Hj1) as (d2 & added2 & Hj2 & He2 & Hl2 & Hr2 & Hn2).
    exists d2, (added1 ++ added2). split; [exact Hj2|].
    split; [rewrite He2, He1, app_assoc; reflexivity|].
    split; [|split; congruence].
    rewrite length_app, Hl1, Hl2. unfold bound_count. cbn [filter].
    destruct (Nat.eqb (snd (snd rq)) j); reflexivity.
Qed.

Context {A : Type} {DB : DBAccess (G := G) A}.

(** X9. A probe cycle over DNS queries neither adds nor removes a
    domain. It appends to the queue of each domain as many events as
    there are remote queries bound to that domain, behind the events
    that were already pending, and keeps its rank and name. *)
Theorem probe_cycle_appends
    (p : Process (G := G) (W := W) (Q := DNSQuery) (A := A))
    (j : nat) (d : Domain G) :
  nth_error (_domains (instance p)) j = Some d ->
  List.length (_domains (instance (Vantage_probe p))) =
    List.length (_domains (instance p)) /\
  exists (d' : Domain G) (added : list Event),
    nth_error (_domains (instance (Vantage_probe p))) j = Some d' /\
    _events d' = _events d ++ added /\
    List.length added = bound_count j (_remoteQueries (instance p)) /\
    _rank d' = _rank d /\ _name d' = _name d.
Proof.
  intros Hj. unfold Vantage_probe.
  destruct (probe_cycle_fold (_remoteQueries (instance p)) (_domains (instance p))
              (world p) (Log.write Log.Probing_all Log.LOG_DEBUG (log p)))
    as [Hlen Hall].
  destruct (fold_left probe_one _ _) as [[domains w] lg].
  cbn [fst instance _domains] in *.
  split; [exact Hlen|]. exact (Hall j d Hj).
Qed.

End ProbeCycle.

Lemma probe_cycle_appends_witness :
  let p := example_process [example_domain] failing_db [ok_answer] in
  nth_error (_domains (instance p)) 0 = Some example_domain /\
  List.length (_domains (instance (Vantage_probe p))) = 1%nat /\
  exists (d' : Domain Z) (added : list Event),
    nth_error (_domains (instance (Vantage_probe p))) 0 = Some d' /\
    _events d' = _events example_domain ++ added /\
    List.length added = 1%nat.
Proof.
  intros p.
  assert (H0 : nth_error (_domains (instance p)) 0 = Some example_domain)
    by reflexivity.
  destruct (probe_cycle_appends p 0%nat example_domain H0)
    as (Hlen & d' & added & Hj & He & Hl & _).
  split; [exact H0|]. split; [exact Hlen|].
  exists d', added. split; [exact Hj|]. split; [exact He|exact Hl].
Defined.

(** ** The signals *)

Section Signals.

Context {G : Type} {RE : RandomEngine G}.
Context {W : Type} {Q : Type} {RQ : RemoteQuery (G := G) (W := W) Q}.
Context {A : Type} {DB : DBAccess (G := G) A}.

Local Abbreviation Proc := (Process (G := G) (W := W) (Q := Q) (A := A)).

Lemma Vantage_save_settings (p : Proc) :
  _flag_stop (instance (Vantage_save p)) = _flag_stop (instance p) /\
  _remoteQueries (instance (Vantage_save p)) = _remoteQueries (instance p) /\
  _probe_interval (instance (Vantage_save p)) = _probe_interval (instance p).
Proof.
  unfold Vantage_save.
  destruct (saveDomains _ _ _) as [[[ret domains] db] lg].
  repeat split.
Qed.

Lemma Vantage_probe_settings (p : Proc) :
  _flag_stop (instance (Vantage_probe p)) = _flag_stop (instance p) /\
  _remoteQueries (instance (Vantage_probe p)) = _remoteQueries (instance p) /\
  _probe_interval (instance (Vantage_probe p)) = _probe_interval (instance p) /\
  _dbaccess (instance (Vantage_probe p)) = _dbaccess (instance p).
Proof.
  unfold Vantage_probe.
  destruct (fold_left probe_one _ _) as [[domains w] lg].
  repeat split.
Qed.

(** What one signal does to the stop flag, the settings and the history
    of the calls. *)
Lemma sigHandler_effect (sig : Signal) (p : Proc) :
  _flag_stop (instance (sigHandler sig p)) =
    (_flag_stop (instance p) || is_termination sig) /\
  _remoteQueries (instance (sigHandler sig p)) = _remoteQueries (instance p) /\
  _probe_interval (instance (sigHandler sig p)) = _probe_interval (instance p) /\
  _dbupdate_freq (instance (sigHandler sig p)) = _dbupdate_freq (instance p) /\
  exists saves : list Call,
    Forall (fun c => c = Call_save) saves /\
    calls (sigHandler sig p) =
      calls p ++ saves ++ (if is_alarm sig then [Call_probe] else []) /\
    (is_termination sig = true -> saves = [Call_save]).
Proof.
  assert (Hstop : forall p0 : Proc,
            _flag_stop (instance (Vantage_stop p0)) = true /\
            _remoteQueries (instance (Vantage_stop p0)) = _remoteQueries (instance p0) /\
            _probe_interval (instance (Vantage_stop p0)) = _probe_interval (instance p0) /\
            _dbupdate_freq (instance (Vantage_stop p0)) = _dbupdate_freq (instance p0) /\
            calls (Vantage_stop p0) = calls p0 ++ [Call_save]).
  { intros p0. unfold Vantage_stop.
    destruct (Vantage_save_settings p0) as (_ & Hq & Hi).
    destruct (Vantage_save_frame p0) as (_ & Hf & Hc).
    cbn [instance _flag_stop _remoteQueries _probe_interval _dbupdate_freq calls].
    repeat split; assumption. }
  assert (Hterm : forall p0 : Proc,
            let p1 := Vantage_stop
                        (with_log (Log.write Log.Application_interrupted
                                     Log.LOG_DEBUG (log p0)) p0) in
            _flag_stop (instance p1) = (_flag_stop (instance p0) || true) /\
            _remoteQueries (instance p1) = _remoteQueries (instance p0) /\
            _probe_interval (instance p1) = _probe_interval (instance p0) /\
            _dbupdate_freq (instance p1) = _dbupdate_freq (instance p0) /\
            exists saves : list Call,
              Forall (fun c => c = Call_save) saves /\
              calls p1 = calls p0 ++ saves ++ [] /\
              (true = true -> saves = [Call_save])).
  { intros p0 p1. unfold p1.
    destruct (Hstop (with_log (Log.write Log.Application_interrupted
                                 Log.LOG_DEBUG (log p0)) p0))
      as (Hfl & Hq & Hi & Hf & Hc).
    rewrite Hfl, Hq, Hi, Hf, Hc, orb_true_r.
    repeat split. exists [Call_save].
    split; [repeat constructor|]. split; [reflexivity|]. reflexivity. }
  destruct sig; cbn [is_termination is_alarm];
    try exact (Hterm p).
  - (* SIGALRM *)
    destruct (sigHandler_SIGALRM p) as (_ & Hf & Hc).
    unfold sigHandler in *.
    set (c := wrap64 (alarm_counter p + 1)) in *.
    cbn [with_alarm_counter with_log alarm_counter instance calls] in *.
    destruct (counter_reached c (_dbupdate_freq (instance p))).
    + destruct (Vantage_save_settings (with_alarm_counter c p)) as (Hfl & Hq & Hi).
      destruct (Vantage_probe_settings
                  (with_alarm_counter 0 (Vantage_save (with_alarm_counter c p))))
        as (Hfl' & Hq' & Hi' & _).
      cbn [with_alarm_counter instance] in *.
      rewrite Hfl', Hq', Hi', Hfl, Hq, Hi, Hf, Hc, orb_false_r.
      repeat split. exists [Call_save].
      split; [repeat constructor|]. split; [reflexivity|discriminate].
    + destruct (Vantage_probe_settings (with_alarm_counter c p)) as (Hfl' & Hq' & Hi' & _).
      cbn [with_alarm_counter instance] in *.
      rewrite Hfl', Hq', Hi', Hf, Hc, orb_false_r.
      repeat split. exists [].
      split; [constructor|]. split; [reflexivity|discriminate].
  - (* any other signal *)
    cbn [sigHandler]. rewrite orb_false_r. repeat split.
    exists []. split; [constructor|]. split; [rewrite app_nil_r; reflexivity|discriminate].
Qed.

End Signals.

(** ** The insertion of new domains by [main] *)

Lemma ascii_byte_inj (a b : ascii) :
  Z.of_N (N_of_ascii a) = Z.of_N (N_of_ascii b) -> a = b.
Proof.
  intros H. apply N2Z.inj in H.
  rewrite <- (ascii_N_embedding a), <- (ascii_N_embedding b), H. reflexivity.
Qed.

(** The comparison of [main] is a test of prefix. *)
Lemma strncmp_prefix (name arg : string) :
  no_zero_byte name ->
  (strncmp (c_str name) (c_str arg) (String.length name) =? 0) =
    String.prefix name arg.
Proof.
  unfold no_zero_byte. revert arg.
  induction name as [|c name IH]; intros arg Hnz.
  - destruct arg; reflexivity.
  - cbn [list_ascii_of_string] in Hnz.
    inversion Hnz as [|c' l Hc Hrest]; subst.
    cbn [String.length strncmp c_str].
    destruct (Z.eqb_spec (Z.of_N (N_of_ascii c)) 0) as [E|_]; [contradiction|].
    cbn [hd tl].
    destruct arg as [|a arg].
    + cbn [c_str hd String.prefix].
      destruct (Z.eqb_spec (Z.of_N (N_of_ascii c)) 0) as [E|_]; [contradiction|].
      apply Z.eqb_neq. lia.
    + cbn [c_str String.prefix].
      destruct (Z.eqb_spec (Z.of_N (N_of_ascii a)) 0) as [Ea|Ea].
      * cbn [hd].
        destruct (Z.eqb_spec (Z.of_N (N_of_ascii c)) 0) as [E|_]; [contradiction|].
        destruct (ascii_dec c a) as [->|_]; [contradiction|].
        apply Z.eqb_neq. lia.
      * cbn [hd tl].
        destruct (Z.eqb_spec (Z.of_N (N_of_ascii c)) (Z.of_N (N_of_ascii a))) as [E|E].
        -- apply ascii_byte_inj in E. subst a.
           destruct (Z.eqb_spec (Z.of_N (N_of_ascii c)) 0) as [E0|_]; [contradiction|].
           destruct (ascii_dec c c) as [_|N]; [|contradiction].
           apply IH. exact Hrest.
        -- destruct (ascii_dec c a) as [->|_]; [contradiction|].
           apply Z.eqb_neq. lia.
Qed.

Section AddDomainsProperties.

Context {G : Type} {RE : RandomEngine G}.

Lemma already_exists_prefix (old_domains : list (Domain G)) (arg : string) (j : Journal) :
  Forall no_zero_byte (map _name old_domains) ->
  fst (already_exists old_domains arg j) =
    existsb (fun name => String.prefix name arg) (map _name old_domains).
Proof.
  induction old_domains as [|d old IH]; intros Hnz; [reflexivity|].
  cbn [map] in Hnz. inversion Hnz as [|n l Hd Hrest]; subst.
  cbn [already_exists map existsb]. unfold getName.
  rewrite (strncmp_prefix (_name d) arg Hd).
  destruct (String.prefix (_name d) arg); [reflexivity|].
  apply IH. exact Hrest.
Qed.

Lemma logged_fst {T : Type} (step : Log.t -> T * Log.t) (j : Journal) :
  fst (logged step j) = fst (step (Log.mkLog (journal_level j) [])).
Proof. unfold logged. destruct (step _) as [x lg]. reflexivity. Qed.

Lemma logged_Domain_named (name : string) (rank : Z)
    (avg stddev count first last : double) (j : Journal) :
  fst (logged (Domain_named (G := G) name rank avg stddev count first last) j) =
    mkDomain rank name avg stddev (size_t_of_double count)
      (size_t_of_double first) (size_t_of_double last) []
      (engine_seed (name_hash name 0)).
Proof. rewrite logged_fst. reflexivity. Qed.

(** The domain that the constructor makes of a name alone. *)
Lemma logged_Domain_of_name (arg : string) (j : Journal) :
  fst (logged (Domain_of_name (G := G) arg) j) =
    mkDomain 0 arg 0%float 0%float 0 0 0 [] (engine_seed (name_hash arg 0)).
Proof. unfold Domain_of_name. rewrite logged_Domain_named. reflexivity. Qed.

Lemma new_domains_acc (old_domains : list (Domain G)) (args : list string)
    (domains : list (Domain G)) (j : Journal) :
  Forall no_zero_byte (map _name old_domains) ->
  fst (new_domains old_domains args domains j) =
    domains ++
    map (fun arg => mkDomain 0 arg 0%float 0%float 0 0 0 []
                      (engine_seed (name_hash arg 0)))
      (filter (is_new (map _name old_domains)) args).
Proof.
  intros Hnz. revert domains j.
  induction args as [|arg args IH]; intros domains j.
  - cbn. rewrite app_nil_r. reflexivity.
  - cbn [new_domains filter].
    pose proof (already_exists_prefix old_domains arg j Hnz) as He.
    destruct (already_exists old_domains arg j) as [b_exists j1]. cbn [fst] in He.
    assert (Hnew : is_new (map _name old_domains) arg = negb b_exists)
      by (unfold is_new; rewrite He; reflexivity).
    rewrite Hnew.
    destruct b_exists; cbn [negb].
    + apply IH.
    + pose proof (logged_Domain_of_name arg j1) as Hd.
      destruct (logged (Domain_of_name arg) j1) as [d j2]. cbn [fst] in Hd.
      rewrite IH, Hd, <- app_assoc. reflexivity.
Qed.

(** X12. When [main] inserts, a name of the command line becomes a new
    domain exactly when no name of the database is a prefix of it: a
    name that extends a stored one is taken for present. The new domains
    keep the order of the command line, a name given twice is there
    twice, and each has rank 0, zero statistics and an empty queue. *)
Theorem new_domains_selection (old_domains : list (Domain G)) (args : list string)
    (j : Journal) :
  Forall no_zero_byte (map _name old_domains) ->
  map _name (fst (new_domains old_domains args [] j)) =
    filter (is_new (map _name old_domains)) args /\
  Forall (fun d => _rank d = 0 /\ _query_count d = 0 /\
                   _query_time_avg d = 0%float /\ _query_time_stddev d = 0%float /\
                   _time_first d = 0 /\ _time_last d = 0 /\ _events d = [])
    (fst (new_domains old_domains args [] j)).
Proof.
  intros Hnz. rewrite (new_domains_acc old_domains args [] j Hnz). cbn [app].
  split.
  - rewrite map_map. cbn [_name]. apply map_id.
  - apply Forall_forall. intros d Hd. apply in_map_iff in Hd.
    destruct Hd as (arg & <- & _). cbn. repeat split.
Qed.

End AddDomainsProperties.

Lemma new_domains_selection_witness :
  let args := ["example.com.org"; "other.net"; "example.com"; "other.net"]%string in
  Forall no_zero_byte (map _name [example_domain]) /\
  map _name (fst (new_domains [example_domain] args [] empty_journal)) =
    ["other.net"; "other.net"]%string.
Proof.
  intros args.
  assert (Hnz : Forall no_zero_byte (map _name [example_domain])).
  { repeat constructor; cbn; discriminate. }
  split; [exact Hnz|].
  destruct (new_domains_selection [example_domain] args empty_journal Hnz) as [Hn _].
  rewrite Hn. reflexivity.
Defined.

(** ** A tick that saves *)

Section SavingTick.

Context {G : Type} {RE : RandomEngine G}.
Context {W : Type} {RS : Resolver W}.
Context {C : Type} {CN : Connection C}.

(** X15. At a tick where a save is due, the save comes before the probe
    cycle: after the tick the queue of each domain holds the events of
    this probe cycle only, one per remote query bound to the domain,
    whatever was pending before and whether the save succeeded or not.
    These events wait for the next save. *)
Theorem saving_tick_queue
    (p : Process (G := G) (W := W) (Q := DNSQuery) (A := C))
    (j : nat) (d : Domain G) :
  counter_reached (wrap64 (alarm_counter p + 1)) (_dbupdate_freq (instance p)) = true ->
  nth_error (_domains (instance p)) j = Some d ->
  alarm_counter (sigHandler SIGALRM p) = 0 /\
  exists d' : Domain G,
    nth_error (_domains (instance (sigHandler SIGALRM p))) j = Some d' /\
    List.length (_events d') = bound_count j (_remoteQueries (instance p)) /\
    _rank d' = _rank d /\ _name d' = _name d.
Proof.
  intros Hdue Hj.
  assert (Hne : _domains (instance p) <> []).
  { intros E. rewrite E in Hj. destruct j; discriminate. }
  unfold sigHandler.
  cbn [with_alarm_counter with_log alarm_counter instance].
  rewrite Hdue.
  set (c := wrap64 (alarm_counter p + 1)).
  destruct (MySQL_saveDomains_drains (_domains (instance p))
              (_dbaccess (instance p)) (log p) Hne) as (_ & Hd & _).
  unfold Vantage_save. cbn [with_alarm_counter instance log saveDomains MySQLAccess].
  destruct (MySQL_saveDomains (_domains (instance p)) (_dbaccess (instance p)) (log p))
    as [[[ret saved] db] lg1].
  cbn [fst snd] in Hd. subst saved.
  unfold Vantage_probe.
  cbn [with_alarm_counter instance _domains _remoteQueries world log alarm_counter].
  match goal with
  | |- context [fold_left probe_one ?rqs (?ds, ?w, ?lg)] =>
      destruct (probe_cycle_fold rqs ds w lg) as [_ Hall];
      destruct (fold_left probe_one rqs (ds, w, lg)) as [[domains w'] lg']
  end.
  cbn [fst alarm_counter instance _domains] in *.
  split; [reflexivity|].
  destruct (Hall j (with_events [] d)) as (d' & added & Hj' & He & Hl & Hr & Hn).
  { apply map_nth_error. exact Hj. }
  exists d'. split; [exact Hj'|].
  rewrite He. cbn [with_events _events app] in *.
  split; [exact Hl|]. split; [exact Hr|exact Hn].
Qed.

End SavingTick.

Lemma saving_tick_queue_witness :
  let p := with_alarm_counter 3 (example_process [busy_domain] failing_db [ok_answer]) in
  counter_reached (wrap64 (alarm_counter p + 1)) (_dbupdate_freq (instance p)) = true /\
  nth_error (_domains (instance p)) 0 = Some busy_domain /\
  List.length (_events busy_domain) = 2%nat /\
  exists d' : Domain Z,
    nth_error (_domains (instance (sigHandler SIGALRM p))) 0 = Some d' /\
    List.length (_events d') = 1%nat.
Proof.
  intros p.
  assert (Hdue : counter_reached (wrap64 (alarm_counter p + 1))
                   (_dbupdate_freq (instance p)) = true)
    by (vm_compute; reflexivity).
  assert (Hj : nth_error (_domains (instance p)) 0 = Some busy_domain) by reflexivity.
  destruct (saving_tick_queue p 0%nat busy_domain Hdue Hj) as (_ & d' & Hj' & Hl & _).
  split; [exact Hdue|]. split; [exact Hj|]. split; [reflexivity|].
  exists d'. split; [exact Hj'|exact Hl].
Defined.

(** ** The two times of a domain over a sequence of updates *)

Lemma last_cons {T : Type} (l : list T) (a d : T) : last (a :: l) d = last l a.
Proof.
  revert a d. induction l as [|b l IH]; intros a d; [reflexivity|].
  change (last (a :: b :: l) d) with (last (b :: l) d).
  rewrite (IH b d), (IH b a). reflexivity.
Qed.

Section DomainTimes.

Context {G : Type} {RE : RandomEngine G}.

(** X16. After a sequence of updates, [timeLast] is the timestamp of the
    last answer of the sequence, not the greatest one, and is unchanged
    when the sequence has no answer; [timeFirst] is kept when it was not
    0 and is otherwise the first timestamp of an answer that is not 0. *)
Theorem update_all_times (evs : list Event) (d : Domain G) :
  _time_last (update_all d evs) = last (answer_times evs) (_time_last d) /\
  _time_first (update_all d evs) =
    (if _time_first d =? 0 then first_nonzero (answer_times evs) else _time_first d).
Proof.
  revert d. induction evs as [|ev evs IH]; intros d.
  - cbn. destruct (Z.eqb_spec (_time_first d) 0) as [E|E]; split; congruence.
  - unfold update_all in *. cbn [fold_left].
    destruct (IH (snd (update d ev))) as [Hl Hf].
    rewrite Hl, Hf, update_time_last, update_time_first.
    unfold answer_times in *. cbn [filter].
    change (EventType_eqb (event ev) EV_RECV_DATA) with (is_recv ev).
    destruct (is_recv ev); cbn [map].
    + split; [rewrite last_cons; reflexivity|].
      unfold first_nonzero. cbn [filter].
      destruct (Z.eqb_spec (_time_first d) 0) as [E|E].
      * destruct (Z.eqb_spec (time ev) 0) as [E0|E0]; cbn [negb hd]; reflexivity.
      * destruct (Z.eqb_spec (_time_first d) 0); [contradiction|reflexivity].
    + split; reflexivity.
Qed.

End DomainTimes.

(** ** Names with the same seed *)

Lemma fold_lxor_permutation (l1 l2 : list Z) :
  Permutation l1 l2 ->
  forall a : Z, fold_left Z.lxor l1 a = fold_left Z.lxor l2 a.
Proof.
  induction 1 as [|x l1 l2 Hp IH|x y l|l1 l2 l3 H12 IH12 H23 IH23]; intros a.
  - reflexivity.
  - cbn. apply IH.
  - cbn. f_equal. rewrite !Z.lxor_assoc. f_equal. apply Z.lxor_comm.
  - rewrite IH12. apply IH23.
Qed.

Section SeedCollisions.

Context {G : Type} {RE : RandomEngine G}.

(** X17. Two names made of the same bytes in a different order seed the
    generator alike: their domains give the same successive targets,
    whatever the engine. *)
Theorem permuted_names_same_targets (name1 name2 : string) (lg1 lg2 : Log.t) (n : nat) :
  Permutation (c_str name1) (c_str name2) ->
  fst (random_targets n (fst (Domain_of_name (G := G) name1 lg1))) =
    fst (random_targets n (fst (Domain_of_name (G := G) name2 lg2))).
Proof.
  intros Hp. apply random_targets_PRNG.
  unfold Domain_of_name, Domain_named. cbn [fst _PRNG].
  destruct (name_hash_fold name1 0 ltac:(lia)) as [H1 _].
  destruct (name_hash_fold name2 0 ltac:(lia)) as [H2 _].
  rewrite H1, H2, (fold_lxor_permutation _ _ Hp 0). reflexivity.
Qed.

End SeedCollisions.

Lemma permuted_names_same_targets_witness :
  Permutation (c_str "ab.com") (c_str "ba.com") /\
  fst (random_targets 3 (fst (Domain_of_name (G := Z) "ab.com" log_0))) =
    fst (random_targets 3 (fst (Domain_of_name (G := Z) "ba.com" log_0))).
Proof.
  assert (Hp : Permutation (c_str "ab.com") (c_str "ba.com"))
    by (cbn; apply perm_swap).
  split; [exact Hp|].
  exact (permuted_names_same_targets "ab.com" "ba.com" log_0 log_0 3 Hp).
Defined.

(** ** The ticks between two saves *)

Section BetweenSaves.

Context {G : Type} {RE : RandomEngine G}.
Context {W : Type} {RS : Resolver W}.
Context {A : Type} {DB : DBAccess (G := G) A}.

Local Abbreviation DnsProc := (Process (G := G) (W := W) (Q := DNSQuery) (A := A)).

(** A tick at which no save is due is a probe cycle. *)
Lemma quiet_tick (p : DnsProc) (j : nat) (d : Domain G) :
  counter_reached (wrap64 (alarm_counter p + 1)) (_dbupdate_freq (instance p)) = false ->
  nth_error (_domains (instance p)) j = Some d ->
  exists (d' : Domain G) (added : list Event),
    nth_error (_domains (instance (sigHandler SIGALRM p))) j = Some d' /\
    _events d' = _events d ++ added /\
    List.length added = bound_count j (_remoteQueries (instance p)) /\
    _rank d' = _rank d /\ _name d' = _name d.
Proof.
  intros Hquiet Hj. unfold sigHandler.
  cbn [with_alarm_counter with_log alarm_counter instance].
  rewrite Hquiet. unfold Vantage_probe.
  cbn [with_alarm_counter instance _domains _remoteQueries world log alarm_counter].
  match goal with
  | |- context [fold_left probe_one ?rqs (?ds, ?w, ?lg)] =>
      destruct (probe_cycle_fold rqs ds w lg) as [_ Hall];
      destruct (fold_left probe_one rqs (ds, w, lg)) as [[domains w'] lg']
  end.
  cbn [fst instance _domains] in *.
  exact (Hall j d Hj).
Qed.

Lemma quiet_ticks (k : Z) (m : nat) (p : DnsProc) (j : nat) (d : Domain G) :
  (forall c, 0 <= c <= k ->
     counter_reached c (_dbupdate_freq (instance p)) = (k <=? c)) ->
  0 <= alarm_counter p ->
  alarm_counter p + Z.of_nat m < k ->
  k < SIZE_MAX_plus_1 ->
  nth_error (_domains (instance p)) j = Some d ->
  exists (d' : Domain G) (added : list Event),
    nth_error (_domains (instance (ticks m p))) j = Some d' /\
    _events d' = _events d ++ added /\
    List.length added = (m * bound_count j (_remoteQueries (instance p)))%nat /\
    _rank d' = _rank d /\ _name d' = _name d.
Proof.
  revert p d. induction m as [|m IH]; intros p d Hfreq Hc Hm Hk Hj.
  - exists d, []. cbn. rewrite app_nil_r. repeat split. exact Hj.
  - cbn [ticks].
    assert (Hw : wrap64 (alarm_counter p + 1) = alarm_counter p + 1).
    { unfold wrap64. apply Z.mod_small. lia. }
    assert (Hquiet : counter_reached (wrap64 (alarm_counter p + 1))
                       (_dbupdate_freq (instance p)) = false).
    { rewrite Hw, Hfreq by lia. apply Z.leb_gt. lia. }
    destruct (quiet_tick p j d Hquiet Hj) as (d1 & added1 & Hj1 & He1 & Hl1 & Hr1 & Hn1).
    destruct (sigHandler_SIGALRM p) as (Ha & Hf & _).
    cbv zeta in Ha. rewrite Hquiet, Hw in Ha.
    destruct (sigHandler_effect SIGALRM p) as (_ & Hq & _).
    destruct (IH (sigHandler SIGALRM p) d1) as (d2 & added2 & Hj2 & He2 & Hl2 & Hr2 & Hn2).
    + intros c Hcr. rewrite Hf. apply Hfreq. exact Hcr.
    + lia.
    + lia.
    + exact Hk.
    + exact Hj1.
    + exists d2, (added1 ++ added2). split; [exact Hj2|].
      split; [rewrite He2, He1, app_assoc; reflexivity|].
      split; [|split; congruence].
      rewrite length_app, Hl1, Hl2, Hq. cbn [Nat.mul]. reflexivity.
Qed.

(** X19. From a counter at zero and before the tick at which the save is
    due (fewer than [k] ticks, for a frequency that compares with the
    counter as the integer [k]), nothing is saved: after [m] ticks the
    queue of each domain holds what was pending followed by the events
    of the [m] probe cycles, [m] per remote query bound to the domain. *)
Theorem events_accumulate_between_saves (k : Z) (m : nat) (p : DnsProc)
    (j : nat) (d : Domain G) :
  (forall c, 0 <= c <= k ->
     counter_reached c (_dbupdate_freq (instance p)) = (k <=? c)) ->
  Z.of_nat m < k < SIZE_MAX_plus_1 ->
  alarm_counter p = 0 ->
  nth_error (_domains (instance p)) j = Some d ->
  calls (ticks m p) = calls p ++ repeat Call_probe m /\
  exists (d' : Domain G) (added : list Event),
    nth_error (_domains (instance (ticks m p))) j = Some d' /\
    _events d' = _events d ++ added /\
    List.length added = (m * bound_count j (_remoteQueries (instance p)))%nat.
Proof.
  intros Hfreq Hm Hc Hj. split.
  - clear Hj. revert p Hfreq Hc.
    assert (Hgen : forall (n : nat) (p0 : DnsProc),
              (forall c, 0 <= c <= k ->
                 counter_reached c (_dbupdate_freq (instance p0)) = (k <=? c)) ->
              0 <= alarm_counter p0 ->
              alarm_counter p0 + Z.of_nat n < k ->
              calls (ticks n p0) = calls p0 ++ repeat Call_probe n).
    { induction n as [|n IH]; intros p0 Hfreq0 Hc0 Hn.
      - cbn. rewrite app_nil_r. reflexivity.
      - cbn [ticks repeat].
        assert (Hw : wrap64 (alarm_counter p0 + 1) = alarm_counter p0 + 1).
        { unfold wrap64. apply Z.mod_small. lia. }
        destruct (sigHandler_SIGALRM p0) as (Ha & Hf & Hcalls).
        cbv zeta in Ha, Hcalls.
        rewrite Hw, (Hfreq0 (alarm_counter p0 + 1)) in Ha, Hcalls by lia.
        destruct (Z.leb_spec k (alarm_counter p0 + 1)) as [Hle|Hlt]; [lia|].
        rewrite IH, Hcalls, <- app_assoc; [reflexivity| | |].
        + intros c Hcr. rewrite Hf. apply Hfreq0. exact Hcr.
        + lia.
        + lia. }
    intros p Hfreq Hc. apply Hgen; [exact Hfreq|lia|lia].
  - destruct (quiet_ticks k m p j d Hfreq ltac:(lia) ltac:(lia) ltac:(lia) Hj)
      as (d' & added & Hj' & He & Hl & _).
    exists d', added. repeat split; assumption.
Qed.

End BetweenSaves.

Lemma events_accumulate_between_saves_witness :
  let p := example_process [example_domain] failing_db [ok_answer] in
  Z.of_nat 3 < 4 < SIZE_MAX_plus_1 /\
  alarm_counter p = 0 /\
  nth_error (_domains (instance p)) 0 = Some example_domain /\
  calls (ticks 3 p) = [Call_probe; Call_probe; Call_probe] /\
  exists (d' : Domain Z) (added : list Event),
    nth_error (_domains (instance (ticks 3 p))) 0 = Some d' /\
    _events d' = added /\ List.length added = 3%nat.
Proof.
  intros p.
  assert (Hm : Z.of_nat 3 < 4 < SIZE_MAX_plus_1) by (unfold SIZE_MAX_plus_1; lia).
  assert (Hj : nth_error (_domains (instance p)) 0 = Some example_domain)
    by reflexivity.
  destruct (events_accumulate_between_saves 4 3 p 0%nat example_domain
              frequency_4 Hm eq_refl Hj) as (Hc & d' & added & Hj' & He & Hl).
  split; [exact Hm|]. split; [reflexivity|]. split; [exact Hj|].
  split; [exact Hc|].
  exists d', added. split; [exact Hj'|]. split; [exact He|exact Hl].
Defined.

(** * The effects on the database and on the queues *)

(** ** A flush *)

Section FlushEffects.

Context {G : Type} {RE : RandomEngine G}.
Context {C : Type} {CN : Connection C}.

Lemma report_failure_keeps_lines (r : Outcome) (lg : Log.t) (e : Log.Entry) :
  In e (Log.lines lg) -> In e (Log.lines (report_failure r lg)).
Proof.
  intros Hin. destruct r; simpl; [exact Hin|].
  apply write_keeps_lines. exact Hin.
Qed.

Lemma update_domain_keeps_lines (domains : list (Domain G)) (st : C * Log.t)
    (e : Log.Entry) :
  In e (Log.lines (snd st)) ->
  In e (Log.lines (snd (fold_left update_domain domains st))).
Proof.
  revert st. induction domains as [|d domains IH]; intros st Hin; simpl.
  - exact Hin.
  - apply IH. destruct st as [c lg]. unfold update_domain.
    destruct (execute _ c) as [r c']. simpl.
    apply report_failure_keeps_lines, write_keeps_lines. exact Hin.
Qed.

(** The failure of the [UPDATE] of one domain is in the log after the
    loop over all the domains. *)
Lemma update_domain_logs (ds1 : list (Domain G)) (d : Domain G) (ds2 : list (Domain G))
    (c : C) (lg : Log.t) (error : string) :
  fst (execute (update_statement d) (execute_all (map update_statement ds1) c))
    = Failed error ->
  Log.LOG_LEVEL lg <= Log.rank_of Log.LOG_ERROR ->
  In (Log.mkEntry Log.LOG_ERROR (Log.Sql_failed error))
     (Log.lines (snd (fold_left update_domain (ds1 ++ d :: ds2) (c, lg)))).
Proof.
  intros Hfail Hlvl.
  rewrite fold_left_app. cbn [fold_left].
  pose proof (update_domain_connection ds1 c lg) as Hc.
  pose proof (update_domain_LOG_LEVEL ds1 (c, lg)) as Hl.
  destruct (fold_left update_domain ds1 (c, lg)) as [c1 lg1].
  cbn [fst snd] in Hc, Hl. subst c1.
  apply update_domain_keeps_lines.
  unfold update_domain. fold (update_statement d).
  destruct (execute (update_statement d) (execute_all (map update_statement ds1) c))
    as [r c2].
  cbn [fst] in Hfail. subst r. cbn [snd report_failure].
  apply write_adds_line. rewrite write_LOG_LEVEL, Hl. exact Hlvl.
Qed.

(** A statement of a save is the [UPDATE] of one of the domains or the
    [INSERT] at the end. *)
Lemma sent_statements_split (domains : list (Domain G))
    (sqls : list Statement) (sql : Statement) (rest : list Statement) :
  sent_statements domains = sqls ++ sql :: rest ->
  (sqls = map update_statement domains /\
   sql = Insert_measurements (pending_rows domains) /\ rest = []) \/
  (exists (ds1 : list (Domain G)) (d : Domain G) (ds2 : list (Domain G)),
     domains = ds1 ++ d :: ds2 /\
     sqls = map update_statement ds1 /\ sql = update_statement d).
Proof.
  unfold sent_statements.
  generalize (Insert_measurements (pending_rows domains)) as x.
  revert sqls. induction domains as [|d domains IH]; intros sqls x E.
  - destruct sqls as [|s sqls]; cbn in E.
    + injection E as <- <-. left. repeat split.
    + injection E as _ E. destruct sqls; discriminate.
  - destruct sqls as [|s sqls]; cbn in E.
    + injection E as <- _. right. exists [], d, domains. repeat split.
    + injection E as <- E. destruct (IH sqls x E) as [(-> & -> & ->)|(ds1 & d0 & ds2 & -> & -> & ->)].
      * left. repeat split.
      * right. exists (d :: ds1), d0, ds2. repeat split.
Qed.

(** Every statement of a save that fails is in the log at the error
    level, unless the level of the log filters the errors out. *)
Lemma MySQL_saveDomains_logs_failures (domains : list (Domain G)) (c : C) (lg : Log.t)
    (sqls : list Statement) (sql : Statement) (rest : list Statement) (error : string) :
  domains <> [] ->
  sent_statements domains = sqls ++ sql :: rest ->
  fst (execute sql (execute_all sqls c)) = Failed error ->
  Log.LOG_LEVEL lg <= Log.rank_of Log.LOG_ERROR ->
  In (Log.mkEntry Log.LOG_ERROR (Log.Sql_failed error))
     (Log.lines (snd (MySQL_saveDomains domains c lg))).
Proof.
  intros Hne Hsplit Hfail Hlvl.
  rewrite (MySQL_saveDomains_nonempty domains c lg Hne). cbn [snd].
  apply write_keeps_lines.
  destruct (sent_statements_split domains sqls sql rest Hsplit)
    as [(-> & -> & _)|(ds1 & d & ds2 & -> & -> & ->)].
  - rewrite update_domain_connection, Hfail. cbn [report_failure].
    apply write_adds_line. rewrite update_domain_LOG_LEVEL. exact Hlvl.
  - apply report_failure_keeps_lines.
    apply update_domain_logs; assumption.
Qed.

(** The connection and the domains after [saveDomains], for any
    collection. *)
Lemma MySQL_saveDomains_effect (domains : list (Domain G)) (c : C) (lg : Log.t) :
  snd (fst (fst (MySQL_saveDomains domains c lg))) = map (with_events []) domains /\
  snd (fst (MySQL_saveDomains domains c lg)) = execute_all (flush_statements domains) c.
Proof.
  destruct domains as [|d domains].
  - split; reflexivity.
  - rewrite (MySQL_saveDomains_nonempty (d :: domains) c lg) by discriminate.
    cbn [fst snd flush_statements]. unfold sent_statements.
    rewrite execute_all_app, update_domain_connection. split; reflexivity.
Qed.

Lemma drained_queues (domains : list (Domain G)) :
  Forall (fun d => _events d = []) (map (with_events []) domains).
Proof.
  induction domains as [|d domains IH]; constructor; [reflexivity|exact IH].
Qed.

End FlushEffects.

Section FlushOfTheVantagePoint.

Context {G : Type} {RE : RandomEngine G}.
Context {W : Type} {Q : Type} {RQ : RemoteQuery (G := G) (W := W) Q}.
Context {C : Type} {CN : Connection C}.

Local Abbreviation ProcC := (Process (G := G) (W := W) (Q := Q) (A := C)).

(** What [Vantage::save] changes, with [MySQLAccess] as the storage. *)
Lemma Vantage_save_effect (p : ProcC) :
  _dbaccess (instance (Vantage_save p)) =
    execute_all (flush_statements (_domains (instance p))) (_dbaccess (instance p)) /\
  _domains (instance (Vantage_save p)) = map (with_events []) (_domains (instance p)) /\
  world (Vantage_save p) = world p /\
  alarm_counter (Vantage_save p) = alarm_counter p /\
  _remoteQueries (instance (Vantage_save p)) = _remoteQueries (instance p) /\
  _flag_stop (instance (Vantage_save p)) = _flag_stop (instance p) /\
  _dbupdate_freq (instance (Vantage_save p)) = _dbupdate_freq (instance p) /\
  log (Vantage_save p) =
    snd (MySQL_saveDomains (_domains (instance p)) (_dbaccess (instance p)) (log p)).
Proof.
  unfold Vantage_save. cbn [saveDomains MySQLAccess].
  destruct (MySQL_saveDomains_effect (_domains (instance p)) (_dbaccess (instance p))
              (log p)) as [Hd Hc].
  destruct (MySQL_saveDomains (_domains (instance p)) (_dbaccess (instance p)) (log p))
    as [[[ret saved] db] lg1].
  cbn [fst snd] in Hd, Hc. subst saved db.
  cbn [instance _dbaccess _domains world alarm_counter _remoteQueries _flag_stop
       _dbupdate_freq log snd].
  repeat split.
Qed.

(** C2, amended. A flush of a domain set that is not empty does not
    depend on the answers of the database: [saveDomains] returns [true],
    the connection has received the statements of the save (every
    [UPDATE], then the [INSERT] with the pending events), the queue of
    every domain is empty afterwards, and every statement that failed is
    in the log at the error level (unless the level of the log filters
    the errors out). Nothing is kept for a later flush; the remote
    queries, the stop flag, the counter and the world are untouched. *)
Theorem flush_drains_in_any_case (p : ProcC) :
  _domains (instance p) <> [] ->
  let domains := _domains (instance p) in
  let p' := Vantage_save p in
  fst (fst (fst (saveDomains domains (_dbaccess (instance p)) (log p)))) = true /\
  _dbaccess (instance p') = execute_all (sent_statements domains) (_dbaccess (instance p)) /\
  _domains (instance p') = map (with_events []) domains /\
  Forall (fun d => _events d = []) (_domains (instance p')) /\
  (forall (sqls : list Statement) (sql : Statement) (rest : list Statement)
          (error : string),
     sent_statements domains = sqls ++ sql :: rest ->
     fst (execute sql (execute_all sqls (_dbaccess (instance p)))) = Failed error ->
     Log.LOG_LEVEL (log p) <= Log.rank_of Log.LOG_ERROR ->
     In (Log.mkEntry Log.LOG_ERROR (Log.Sql_failed error)) (Log.lines (log p'))) /\
  _remoteQueries (instance p') = _remoteQueries (instance p) /\
  _flag_stop (instance p') = _flag_stop (instance p) /\
  alarm_counter p' = alarm_counter p /\
  world p' = world p.
Proof.
  intros Hne domains p'.
  destruct (Vantage_save_effect p) as (Hc & Hd & Hw & Ha & Hq & Hf & _ & Hl).
  fold p' in Hc, Hd, Hw, Ha, Hq, Hf, Hl. fold domains in Hc, Hd, Hl.
  split.
  { cbn [saveDomains MySQLAccess].
    rewrite (MySQL_saveDomains_nonempty domains _ _ Hne). reflexivity. }
  split.
  { rewrite Hc. unfold flush_statements. subst domains.
    destruct (_domains (instance p)); [contradiction|reflexivity]. }
  split; [exact Hd|].
  split; [rewrite Hd; apply drained_queues|].
  split.
  { intros sqls sql rest error Hsplit Hfail Hlvl. rewrite Hl.
    apply (MySQL_saveDomains_logs_failures domains _ _ sqls sql rest error);
      assumption. }
  repeat split; assumption.
Qed.

(** X10. A termination signal (SIGINT, SIGHUP or SIGTERM) makes one
    flush and no probe: the connection receives the statements of one
    save (none when there is no domain), the queues are emptied and get
    no new event, the world is not touched; the stop flag is set; the
    counter of the timer and the remote queries are unchanged. *)
Theorem termination_signal_saves_once (sig : Signal) (p : ProcC) :
  is_termination sig = true ->
  let p' := sigHandler sig p in
  _dbaccess (instance p') =
    execute_all (flush_statements (_domains (instance p))) (_dbaccess (instance p)) /\
  _domains (instance p') = map (with_events []) (_domains (instance p)) /\
  world p' = world p /\
  _flag_stop (instance p') = true /\
  alarm_counter p' = alarm_counter p /\
  _remoteQueries (instance p') = _remoteQueries (instance p).
Proof.
  intros Hsig p'.
  assert (E : p' = Vantage_stop
                     (with_log (Log.write Log.Application_interrupted
                                  Log.LOG_DEBUG (log p)) p)).
  { unfold p'. destruct sig; try discriminate; reflexivity. }
  rewrite E. unfold Vantage_stop.
  destruct (Vantage_save_effect
              (with_log (Log.write Log.Application_interrupted
                           Log.LOG_DEBUG (log p)) p))
    as (Hc & Hd & Hw & Ha & Hq & _).
  cbn [instance _dbaccess _domains world _flag_stop alarm_counter _remoteQueries].
  rewrite Hc, Hd, Hw, Ha, Hq. repeat split.
Qed.

End FlushOfTheVantagePoint.

Lemma flush_drains_in_any_case_witness :
  let p := example_process [busy_domain] failing_db [] in
  let p' := Vantage_save p in
  _domains (instance p) <> [] /\
  map _events (_domains (instance p)) = [[timeout_at 1; answer_at 2 10%float]] /\
  received (_dbaccess (instance p')) =
    [update_statement busy_domain;
     Insert_measurements [(timeout_at 1, 0); (answer_at 2 10%float, 0)]] /\
  Forall (fun d => _events d = []) (_domains (instance p')) /\
  In (Log.mkEntry Log.LOG_ERROR (Log.Sql_failed "server has gone away"))
     (Log.lines (log p')).
Proof.
  intros p p'.
  assert (Hne : _domains (instance p) <> []) by discriminate.
  destruct (flush_drains_in_any_case p Hne) as (_ & Hc & _ & He & Hlog & _).
  split; [exact Hne|]. split; [reflexivity|].
  split.
  { unfold p'. rewrite Hc.
    destruct (recorder_received (sent_statements (_domains (instance p)))
                (_dbaccess (instance p))) as [Hr _].
    rewrite Hr. reflexivity. }
  split; [exact He|].
  apply (Hlog [] (update_statement busy_domain)
           [Insert_measurements [(timeout_at 1, 0); (answer_at 2 10%float, 0)]]
           "server has gone away"%string).
  - reflexivity.
  - reflexivity.
  - vm_compute. discriminate.
Defined.

Lemma termination_signal_saves_once_witness :
  let p := example_process [busy_domain] failing_db [ok_answer] in
  let p' := sigHandler SIGTERM p in
  is_termination SIGTERM = true /\
  received (_dbaccess (instance p')) =
    [update_statement busy_domain;
     Insert_measurements [(timeout_at 1, 0); (answer_at 2 10%float, 0)]] /\
  map _events (_domains (instance p')) = [[]] /\
  world p' = world p /\
  _flag_stop (instance p') = true.
Proof.
  intros p p'.
  destruct (termination_signal_saves_once SIGTERM p eq_refl)
    as (Hc & Hd & Hw & Hf & _).
  split; [reflexivity|].
  split.
  { unfold p'. rewrite Hc.
    destruct (recorder_received (flush_statements (_domains (instance p)))
                (_dbaccess (instance p))) as [Hr _].
    rewrite Hr. reflexivity. }
  split; [unfold p'; rewrite Hd; reflexivity|].
  split; [exact Hw|exact Hf].
Defined.

(** ** The timer and the signals *)

Section TimerEffects.

Context {G : Type} {RE : RandomEngine G}.
Context {W : Type} {RS : Resolver W}.
Context {C : Type} {CN : Connection C}.

Local Abbreviation DnsProcC := (Process (G := G) (W := W) (Q := DNSQuery) (A := C)).

(** One firing of the timer, by its effects: the counter, the statements
    that reach the database and what the probe cycle queues. *)
Lemma tick_effect (p : DnsProcC) :
  let c := wrap64 (alarm_counter p + 1) in
  let due := counter_reached c (_dbupdate_freq (instance p)) in
  let p' := sigHandler SIGALRM p in
  alarm_counter p' = (if due then 0 else c) /\
  _dbaccess (instance p') =
    execute_all (if due then flush_statements (_domains (instance p)) else [])
      (_dbaccess (instance p)) /\
  forall (j : nat) (d : Domain G),
    nth_error (_domains (instance p)) j = Some d ->
    exists (d' : Domain G) (added : list Event),
      nth_error (_domains (instance p')) j = Some d' /\
      _events d' = (if due then [] else _events d) ++ added /\
      List.length added = bound_count j (_remoteQueries (instance p)) /\
      _rank d' = _rank d /\ _name d' = _name d.
Proof.
  intros c due p'. unfold p', sigHandler.
  cbn [with_alarm_counter with_log alarm_counter instance].
  fold c. fold due. destruct due.
  - destruct (Vantage_save_effect (with_alarm_counter c p))
      as (Hc & Hd & _ & _ & Hq & _).
    cbn [with_alarm_counter instance] in Hc, Hd, Hq.
    set (p1 := Vantage_save (with_alarm_counter c p)) in *.
    unfold Vantage_probe.
    cbn [with_alarm_counter instance _domains _remoteQueries world log alarm_counter].
    rewrite Hd, Hq.
    match goal with
    | |- context [fold_left probe_one ?rqs (?ds, ?w, ?lg)] =>
        destruct (probe_cycle_fold rqs ds w lg) as [_ Hall];
        destruct (fold_left probe_one rqs (ds, w, lg)) as [[domains w'] lg']
    end.
    cbn [fst alarm_counter instance _domains _dbaccess] in *.
    split; [reflexivity|]. split; [exact Hc|].
    intros j d Hj.
    destruct (Hall j (with_events [] d)) as (d' & added & Hj' & He & Hl & Hr & Hn).
    { apply map_nth_error. exact Hj. }
    exists d', added. split; [exact Hj'|].
    split; [exact He|]. split; [exact Hl|]. split; [exact Hr|exact Hn].
  - unfold Vantage_probe.
    cbn [with_alarm_counter instance _domains _remoteQueries world log alarm_counter].
    match goal with
    | |- context [fold_left probe_one ?rqs (?ds, ?w, ?lg)] =>
        destruct (probe_cycle_fold rqs ds w lg) as [_ Hall];
        destruct (fold_left probe_one rqs (ds, w, lg)) as [[domains w'] lg']
    end.
    cbn [fst alarm_counter instance _domains _dbaccess] in *.
    split; [reflexivity|]. split; [reflexivity|].
    exact Hall.
Qed.




(** X11. Over any sequence of signals the stop flag at the end is set
    exactly when it was set before or a termination signal occurred, and
    the remote queries, the probe interval and the save frequency never
    change. The handler never reads the stop flag: whatever the signals
    before, the next SIGALRM still runs a probe cycle, in which each
    domain gets one new event for each remote query bound to it, after
    the flush when one is due. *)
Theorem signals_invariants (sigs : list Signal) (p : DnsProcC) :
  let q := signals sigs p in
  let q' := sigHandler SIGALRM q in
  let due :=
    counter_reached (wrap64 (alarm_counter q + 1)) (_dbupdate_freq (instance p)) in
  _flag_stop (instance q) = (_flag_stop (instance p) || existsb is_termination sigs) /\
  _remoteQueries (instance q) = _remoteQueries (instance p) /\
  _probe_interval (instance q) = _probe_interval (instance p) /\
  _dbupdate_freq (instance q) = _dbupdate_freq (instance p) /\
  _flag_stop (instance q') = _flag_stop (instance q) /\
  forall (j : nat) (d : Domain G),
    nth_error (_domains (instance q)) j = Some d ->
    exists (d' : Domain G) (added : list Event),
      nth_error (_domains (instance q')) j = Some d' /\
      _events d' = (if due then [] else _events d) ++ added /\
      List.length added = bound_count j (_remoteQueries (instance p)).
Proof.
  intros q q' due.
  assert (Hinv : _flag_stop (instance q) =
                   (_flag_stop (instance p) || existsb is_termination sigs) /\
                 _remoteQueries (instance q) = _remoteQueries (instance p) /\
                 _probe_interval (instance q) = _probe_interval (instance p) /\
                 _dbupdate_freq (instance q) = _dbupdate_freq (instance p)).
  { unfold q. clear q q' due. revert p.
    induction sigs as [|sig sigs IH]; intros p.
    - cbn. rewrite orb_false_r. repeat split.
    - unfold signals in *. cbn [fold_left existsb].
      destruct (IH (sigHandler sig p)) as (Hf & Hq & Hi & Hd).
      destruct (sigHandler_effect sig p) as (Hf1 & Hq1 & Hi1 & Hd1 & _).
      rewrite Hf, Hq, Hi, Hd, Hf1, Hq1, Hi1, Hd1, orb_assoc. repeat split. }
  destruct Hinv as (Hf & Hq & Hi & Hd).
  split; [exact Hf|]. split; [exact Hq|]. split; [exact Hi|]. split; [exact Hd|].
  split.
  { destruct (sigHandler_effect SIGALRM q) as (Hf1 & _).
    fold q' in Hf1. rewrite Hf1. cbn [is_termination]. apply orb_false_r. }
  intros j d Hj.
  destruct (tick_effect q) as (_ & _ & Hall). cbv zeta in Hall.
  destruct (Hall j d Hj) as (d' & added & Hj' & He & Hl & _).
  rewrite Hd, Hq in *.
  exists d', added. split; [exact Hj'|]. split; [exact He|exact Hl].
Qed.

End TimerEffects.


Lemma signals_invariants_witness :
  let p := example_process [example_domain] failing_db [ok_answer; ok_answer] in
  let q := signals [SIGALRM; SIGTERM] p in
  _flag_stop (instance q) = true /\
  _flag_stop (instance (sigHandler SIGALRM q)) = true /\
  map _events (_domains (instance q)) = [[]] /\
  exists d' : Domain Z,
    nth_error (_domains (instance (sigHandler SIGALRM q))) 0 = Some d' /\
    List.length (_events d') = 1%nat.
Proof.
  intros p q.
  destruct (signals_invariants [SIGALRM; SIGTERM] p) as (Hf & _ & _ & _ & Hf' & Hall).
  fold q in Hf, Hf', Hall.
  split; [exact Hf|]. split; [rewrite Hf'; exact Hf|].
  split; [vm_compute; reflexivity|].
  assert (Hj : exists d : Domain Z,
            nth_error (_domains (instance q)) 0 = Some d /\ _events d = [])
    by (vm_compute; eexists; split; reflexivity).
  destruct Hj as (d & Hj & Hempty).
  assert (Hdue : counter_reached (wrap64 (alarm_counter q + 1))
                   (_dbupdate_freq (instance p)) = false)
    by (vm_compute; reflexivity).
  destruct (Hall 0%nat d Hj) as (d' & added & Hj' & He & Hl).
  rewrite Hdue, Hempty in He. cbn [app] in He.
  exists d'. split; [exact Hj'|]. rewrite He. exact Hl.
Defined.

(** ** The statements of the insertion and of the deletion of domains *)

Section ManagementProperties.

Context {G : Type} {RE : RandomEngine G}.
Context {C : Type} {AC : AdminConnection C}.

Lemma named_domains_acc (args : list string) (domains : list (Domain G)) (j : Journal) :
  fst (named_domains args domains j) =
    domains ++
    map (fun arg => mkDomain 0 arg 0%float 0%float 0 0 0 []
                      (engine_seed (name_hash arg 0))) args.
Proof.
  revert domains j. induction args as [|arg args IH]; intros domains j.
  - cbn. rewrite app_nil_r. reflexivity.
  - cbn [named_domains map].
    pose proof (logged_Domain_of_name (G := G) arg j) as Hd.
    destruct (logged (Domain_of_name arg) j) as [d j1]. cbn [fst] in Hd.
    rewrite IH, Hd, <- app_assoc. reflexivity.
Qed.

Lemma deleteDomains_statement (domains : list (Domain G)) (c : C) (j : Journal) :
  fst (fst (deleteDomains domains c j)) = nonempty domains /\
  snd (fst (deleteDomains domains c j)) =
    after_statement domains (Delete_domains (map getName domains)) c.
Proof.
  unfold deleteDomains, after_statement. destruct domains as [|d domains].
  - split; reflexivity.
  - destruct (Z.eqb_spec (Z.of_nat (List.length (d :: domains))) 0) as [E|_].
    { cbn [List.length] in E. lia. }
    destruct (execute_admin _ c) as [r c1]. split; reflexivity.
Qed.

Lemma addDomains_statement (domains : list (Domain G)) (c : C) (j : Journal) :
  fst (fst (addDomains domains c j)) = nonempty domains /\
  snd (fst (addDomains domains c j)) =
    after_statement domains (Insert_domains (map insert_row domains)) c.
Proof.
  unfold addDomains, after_statement. destruct domains as [|d domains].
  - split; reflexivity.
  - destruct (Z.eqb_spec (Z.of_nat (List.length (d :: domains))) 0) as [E|_].
    { cbn [List.length] in E. lia. }
    destruct (execute_admin _ c) as [r c1]. split; reflexivity.
Qed.

(** X14. The statements of the domain management of [main]. The deletion
    sends one [DELETE] with the names of the command line as they are
    given, in their order, and nothing when there is no name. The
    insertion, once the domains of the database are in [old_domains],
    sends at most one [INSERT], with one row of zero statistics per name
    that no stored name is a prefix of, and nothing when no such name is
    left. Both calls return [true] as soon as a statement is sent,
    whatever the database answers. *)
Theorem domain_management_statements (old_domains : list (Domain G))
    (args : list string) (c : C) (j : Journal) :
  Forall no_zero_byte (map _name old_domains) ->
  let names := filter (is_new (map _name old_domains)) args in
  fst (fst (delete_listed (G := G) args c j)) = nonempty args /\
  snd (fst (delete_listed (G := G) args c j)) =
    after_statement args (Delete_domains args) c /\
  fst (fst (insert_new old_domains args c j)) = nonempty names /\
  snd (fst (insert_new old_domains args c j)) =
    after_statement names (Insert_domains (map fresh_row names)) c.
Proof.
  intros Hnz names.
  assert (Hnames : forall l : list string,
            map (getName (G := G))
              (map (fun arg => mkDomain 0 arg 0%float 0%float 0 0 0 []
                                 (engine_seed (name_hash arg 0))) l) = l).
  { intros l. rewrite map_map. apply map_id. }
  assert (Hrows : forall l : list string,
            map (insert_row (G := G))
              (map (fun arg => mkDomain 0 arg 0%float 0%float 0 0 0 []
                                 (engine_seed (name_hash arg 0))) l) = map fresh_row l).
  { intros l. rewrite map_map. reflexivity. }
  assert (Hshape : forall (T : Type) (l : list string) (f : string -> T),
            nonempty (map f l) = nonempty l) by (intros T [|x l] f; reflexivity).
  assert (Hafter : forall (T : Type) (l : list string) (f : string -> T) sql,
            after_statement (map f l) sql c = after_statement l sql c)
    by (intros T [|x l] f sql; reflexivity).
  unfold delete_listed, insert_new.
  pose proof (named_domains_acc args [] j) as Hdel.
  destruct (named_domains args [] j) as [ds1 j1]. cbn [fst app] in Hdel. subst ds1.
  pose proof (new_domains_acc old_domains args [] j Hnz) as Hadd.
  destruct (new_domains old_domains args [] j) as [ds2 j2]. cbn [fst app] in Hadd.
  subst ds2. fold names.
  destruct (deleteDomains_statement
              (map (fun arg => mkDomain 0 arg 0%float 0%float 0 0 0 []
                                 (engine_seed (name_hash arg 0))) args) c j1)
    as [Hd1 Hd2].
  destruct (addDomains_statement
              (map (fun arg => mkDomain 0 arg 0%float 0%float 0 0 0 []
                                 (engine_seed (name_hash arg 0))) names) c j2)
    as [Ha1 Ha2].
  rewrite Hd1, Hd2, Ha1, Ha2, !Hnames, !Hrows, !Hshape, !Hafter.
  repeat split.
Qed.

End ManagementProperties.

Lemma domain_management_statements_witness :
  let old_domains := [fst (Domain_of_name (G := Z) "example.com" log_0)] in
  let args := ["example.org"; "example.com.evil.net"; "example.org"]%string in
  let db := mkTable false [] in
  Forall no_zero_byte (map _name old_domains) /\
  table_received (snd (fst (delete_listed (G := Z) args db empty_journal))) =
    [Delete_domains args] /\
  fst (fst (delete_listed (G := Z) args db empty_journal)) = true /\
  table_received (snd (fst (insert_new old_domains args db empty_journal))) =
    [Insert_domains [fresh_row "example.org"; fresh_row "example.org"]] /\
  table_received (snd (fst (insert_new old_domains ["example.com.evil.net"%string]
                              db empty_journal))) = [].
Proof.
  intros old_domains args db.
  assert (Hnz : Forall no_zero_byte (map _name old_domains)).
  { constructor; [|constructor]. unfold no_zero_byte.
    repeat constructor; vm_compute; discriminate. }
  destruct (domain_management_statements old_domains args db empty_journal Hnz)
    as (Hd1 & Hd2 & _ & Ha2).
  destruct (domain_management_statements old_domains ["example.com.evil.net"%string]
              db empty_journal Hnz) as (_ & _ & _ & Ha3).
  split; [exact Hnz|].
  split; [rewrite Hd2; reflexivity|].
  split; [rewrite Hd1; reflexivity|].
  split; [rewrite Ha2; reflexivity|].
  rewrite Ha3. reflexivity.
Defined.
